(** * linak-ble-controller: a shallow embedding of the desk controller

    The development follows the Python package [linak_ble_controller]:

    - [Struct]: the two [struct] formats the adapter uses, ["<H"] and ["<Hh"];
    - [UnitConverter]: [helper.py], raw ticks versus millimetres;
    - [Py]: the dynamically typed values a configuration mapping holds,
      truthiness, [int(...)], [str(...)] and number formatting;
    - [Effects]: the events a run produces, the peripheral as a function of
      the history, and a state-and-exception monad with [try]/[except]/[finally];
    - [Bluetooth]: [bluetooth.py], class [BluetoothAdapter];
    - [Config]: [config.py], class [UserConfig];
    - [Controller]: [controller.py], class [LinakController];
    - [Observations]: what a history shows (writes, log lines, calls of
      the clean-up), used to state the properties;
    - [Scenarios]: concrete desks, configurations and files.

    The properties follow the definitions, one module of facts per part.

    Python integers are unbounded and are modelled by [Z].  Python's true
    division [/] yields a float; it is modelled by exact rational arithmetic
    ([Q]), so statements about [raw_to_mm] hold up to the rounding of binary
    floating point. *)

From Stdlib Require Import ZArith QArith Qround List String Ascii Lia Bool.
From Stdlib.Strings Require Import Byte.
From stdpp Require Import base gmap strings list pretty.

Local Open Scope Z_scope.

(* ===================================================================== *)
(** ** [struct.pack] and [struct.unpack] *)
(* ===================================================================== *)

Module Struct.

#[global] Instance byte_eq_decision : EqDecision byte := Byte.byte_eq_dec.

Definition Z_of_byte (b : byte) : Z := Z.of_N (Byte.to_N b).

Definition byte_of_Z (z : Z) : byte :=
  match Byte.of_N (Z.to_N (Z.land z 255)) with
  | Some b => b
  | None => x00
  end.

(** [struct.pack("<H", n)]: two bytes, little endian, unsigned.  Outside
    [0, 65535] Python raises [struct.error]; that is [None] here. *)
Definition pack_H (n : Z) : option (list byte) :=
  if (0 <=? n) && (n <=? 65535)
  then Some [byte_of_Z n; byte_of_Z (Z.shiftr n 8)]
  else None.

Definition u16 (lo hi : byte) : Z :=
  Z.lor (Z_of_byte lo) (Z.shiftl (Z_of_byte hi) 8).

Definition s16 (lo hi : byte) : Z :=
  let u := u16 lo hi in
  if u <? 32768 then u else u - 65536.

(** [struct.unpack("<Hh", data)]: exactly four bytes, an unsigned and a
    signed 16-bit integer; another length raises [struct.error]. *)
Definition unpack_Hh (data : list byte) : option (Z * Z) :=
  match data with
  | [b0; b1; b2; b3] => Some (u16 b0 b1, s16 b2 b3)
  | _ => None
  end.

End Struct.

(* ===================================================================== *)
(** ** [helper.py]: class [UnitConverter] *)
(* ===================================================================== *)

Module UnitConverter.

Local Open Scope Q_scope.

Section Converter.
(** [self.base_height], an integer number of millimetres. *)
Variable base_height : Z.

(** [mm_to_raw(mm) = (mm - self.base_height) * 10].  The method is applied
    to integers (a parsed height, a favourite) and, in a round trip, to
    the float [raw_to_mm] returns: one definition per argument type. *)
Definition mm_to_raw (mm : Z) : Z := ((mm - base_height) * 10)%Z.

Definition mm_to_raw_Q (mm : Q) : Q := (mm - inject_Z base_height) * 10.

(** [raw_to_mm(raw) = (raw / 10) + self.base_height], true division. *)
Definition raw_to_mm (raw : Z) : Q := (inject_Z raw / 10) + inject_Z base_height.

(** [raw_to_speed(raw) = raw / 100]. *)
Definition raw_to_speed (raw : Z) : Q := inject_Z raw / 100.

End Converter.

End UnitConverter.

(* ===================================================================== *)
(** ** Python values, exceptions and built-ins the package relies on *)
(* ===================================================================== *)

Module Py.

(** The exceptions that occur in the package.  [KeyboardInterrupt],
    [CancelledError] and [SystemExit] derive from [BaseException] only. *)
Inductive exn :=
| BleakError
| StructError
| ValueError
| TypeError
| KeyError
| AttributeError
| FileNotFoundError
| OSError
| YAMLError
| TimeoutError
| KeyboardInterrupt
| CancelledError
| SystemExit (code : Z).

(** [isinstance(e, Exception)]. *)
Definition is_Exception (e : exn) : bool :=
  match e with
  | KeyboardInterrupt | CancelledError | SystemExit _ => false
  | _ => true
  end.

Definition is_BleakError (e : exn) : bool :=
  match e with BleakError => true | _ => false end.

Definition is_ValueError (e : exn) : bool :=
  match e with ValueError => true | _ => false end.

Definition is_KeyError (e : exn) : bool :=
  match e with KeyError => true | _ => false end.

Definition is_KeyboardInterrupt (e : exn) : bool :=
  match e with KeyboardInterrupt => true | _ => false end.

(** What a configuration mapping holds: scalars as the command line, YAML
    and JSON produce them, and one level of nested mapping ([favourites]).
    Floats and sequences are left out. *)
Inductive scalar :=
| SNone
| SBool (b : bool)
| SInt (n : Z)
| SStr (s : string).

Inductive value :=
| Scalar (v : scalar)
| Mapping (d : gmap string scalar).

Coercion Scalar : scalar >-> value.

#[global] Instance scalar_eq_dec : EqDecision scalar.
Proof. solve_decision. Defined.

#[global] Instance value_eq_dec : EqDecision value.
Proof. solve_decision. Defined.

(** Truthiness: [None], [False], [0], the empty string and the empty
    mapping are false. *)
Definition truthy_scalar (v : scalar) : bool :=
  match v with
  | SNone => false
  | SBool b => b
  | SInt n => negb (n =? 0)
  | SStr s => negb (String.eqb s EmptyString)
  end.

Definition truthy (v : value) : bool :=
  match v with
  | Scalar s => truthy_scalar s
  | Mapping d => negb (bool_decide (d = ∅))
  end.

(** The truth value of [d.get(k)]: a missing key yields [None]. *)
Definition truthy_opt (o : option value) : bool :=
  match o with Some v => truthy v | None => false end.

(** *** [int(s)] on a string: decimal literal, base 10

    ASCII text: blanks around the literal, a sign, digits with single
    underscores between them.  The limit recent versions put on the length
    of a literal is left out. *)

Definition is_space (c : ascii) : bool :=
  let n := nat_of_ascii c in
  ((9 <=? n) && (n <=? 13) || (28 <=? n) && (n <=? 32))%nat.

Definition is_digit (c : ascii) : bool :=
  let n := nat_of_ascii c in ((48 <=? n) && (n <=? 57))%nat.

Definition digit_value (c : ascii) : Z := Z.of_nat (nat_of_ascii c) - 48.

Fixpoint lstrip (s : string) : string :=
  match s with
  | String c r => if is_space c then lstrip r else s
  | EmptyString => EmptyString
  end.

Fixpoint rstrip (s : string) : string :=
  match s with
  | String c r =>
      match rstrip r with
      | EmptyString => if is_space c then EmptyString else String c EmptyString
      | r' => String c r'
      end
  | EmptyString => EmptyString
  end.

Definition strip (s : string) : string := rstrip (lstrip s).

(** Digits, with single underscores allowed between two digits. *)
Fixpoint digits (acc : Z) (after_digit : bool) (s : string) : option Z :=
  match s with
  | EmptyString => if after_digit then Some acc else None
  | String c r =>
      if is_digit c then digits (acc * 10 + digit_value c) true r
      else if Ascii.eqb c "_" then
             (if after_digit then digits acc false r else None)
           else None
  end.

Definition int_of_string (s : string) : option Z :=
  match strip s with
  | String "+" r => digits 0 false r
  | String "-" r => Z.opp <$> digits 0 false r
  | t => digits 0 false t
  end.

(** [int(v)]: [ValueError] for a string that is no literal, [TypeError]
    for [None]. *)
Definition int (v : scalar) : exn + Z :=
  match v with
  | SNone => inl TypeError
  | SBool b => inr (if b then 1 else 0)
  | SInt n => inr n
  | SStr s => match int_of_string s with Some n => inr n | None => inl ValueError end
  end.

(** [str(v)], as an f-string interpolates it. *)
Definition str (v : scalar) : string :=
  match v with
  | SNone => "None"
  | SBool b => if b then "True" else "False"
  | SInt n => pretty n
  | SStr s => s
  end.

(** *** ["{:W.0f}".format(x)] *)

(** Round to the nearest integer, ties to even, as the float formatter does. *)
Definition round_half_even (x : Q) : Z :=
  let d := Z.pos (Qden x) in
  let q := Qnum x / d in
  let r := Qnum x mod d in
  match 2 * r ?= d with
  | Lt => q
  | Gt => q + 1
  | Eq => if Z.even q then q else q + 1
  end.

Fixpoint spaces (n : nat) : string :=
  match n with O => EmptyString | S k => String " " (spaces k) end.

Definition pad_left (width : nat) (s : string) : string :=
  (spaces (width - String.length s) ++ s)%string.

Definition format_f0 (width : nat) (x : Q) : string :=
  let body := pretty (Z.abs (round_half_even x)) in
  pad_left width (if Qnum x <? 0 then ("-" ++ body)%string else body).

End Py.

(* ===================================================================== *)
(** ** Effects: events, the outside world, and the monad of a run *)
(* ===================================================================== *)

Module Effects.

Import Py.

(** [bluetooth.py], enum [GattCharacteristics]: the three endpoints. *)
Inductive GattCharacteristics :=
| UUID_HEIGHT
| UUID_COMMAND
| UUID_REFERENCE_INPUT.

#[global] Instance GattCharacteristics_eq_dec : EqDecision GattCharacteristics.
Proof. solve_decision. Defined.

(** The lines handed to the log sink, one constructor per format string of
    [bluetooth.py], carrying the arguments of the format. *)
Inductive line :=
| HeightLine (height : Z)
| HeightSpeedLine (height speed : Z)
| WatchingLine
| MovingFavouriteLine (v : scalar)
| MovingHeightLine (v : scalar)
| NotValidLine (v : scalar)
| FinalHeightLine (final target : Z).

(** The text of a line, for a converter with the given base height. *)
Definition render (base_height : Z) (l : line) : string :=
  let mm := UnitConverter.raw_to_mm base_height in
  match l with
  | HeightLine h => "Height: " ++ format_f0 4 (mm h) ++ "mm"
  | HeightSpeedLine h s =>
      "Height: " ++ format_f0 4 (mm h) ++ "mm Speed: "
        ++ format_f0 2 (UnitConverter.raw_to_speed s) ++ "mm/s"
  | WatchingLine => "Watching for changes to desk height and speed"
  | MovingFavouriteLine v => "Moving to favourite height: " ++ str v
  | MovingHeightLine v => "Moving to height: " ++ str v
  | NotValidLine v => "Not a valid height or favourite position: " ++ str v
  | FinalHeightLine f t =>
      "Final height: " ++ format_f0 4 (mm f) ++ "mm (Target: "
        ++ format_f0 4 (mm t) ++ "mm)"
  end%string.

(** Everything a run does that is visible from outside, in program order.
    An operation on the client is recorded when it is attempted, whatever
    its result. *)
Inductive event :=
| Print (s : string)
| PrintFormat (template : string) (args : list value)
| PrintExn (template : string) (e : exn)
| Log (l : line)
| NewClient (mac adapter : value)
| Connect (timeout : value)
| GetServices
| ReadGattChar (uuid : GattCharacteristics)
| WriteGattChar (uuid : GattCharacteristics) (data : list byte)
| StartNotify (uuid : GattCharacteristics)
| StopNotify (uuid : GattCharacteristics)
| IsConnected
| Disconnect
| Sleep (ms : Z)
| Discover
| Forward (payload : gmap string value)
| SetDisconnectedCallback
| Listen (address port : value).

(** The outside world: the peripheral, the host's Bluetooth stack, the
    network and the operator.  Each answer is a function of the history so
    far, so a world may react to what was written to it.  An operation
    answers with a value or raises; [None] means it returned normally. *)
Record World := {
  connect_result : list event -> option exn;
  services_result : list event -> exn + list (string * list (string * string));
  read_result : list event -> GattCharacteristics -> exn + list byte;
  write_result : list event -> GattCharacteristics -> list byte -> option exn;
  start_notify_result : list event -> option exn;
  stop_notify_result : list event -> option exn;
  is_connected_result : list event -> bool;
  disconnect_result : list event -> option exn;
  sleep_result : list event -> option exn;
  discover_result : list event -> exn + list string;
  (** the messages a relay server sends back, and how the exchange ends *)
  forward_result : list event -> list string * option exn;
  listen_result : list event -> option exn;
  (** how an await that never completes by itself ends: [None] is never *)
  interrupt : list event -> option exn
}.

(** The mutable state of a run: the history, and whether the adapter's
    [client] attribute holds a client object. *)
Record state := {
  history : list event;
  client : bool
}.

Definition emit_state (e : event) (s : state) : state :=
  {| history := history s ++ [e]; client := client s |}.

(** How a computation ends: it returns, raises, waits forever, or the
    model runs out of the fuel given to a loop. *)
Inductive outcome (A : Type) :=
| Ret (a : A)
| Raise (e : exn)
| Hang
| OutOfFuel.

Arguments Ret {A} a.
Arguments Raise {A} e.
Arguments Hang {A}.
Arguments OutOfFuel {A}.

Definition M (A : Type) : Type := state -> outcome A * state.

Definition ret {A} (a : A) : M A := fun s => (Ret a, s).

Definition raise {A} (e : exn) : M A := fun s => (Raise e, s).

Definition hang {A} : M A := fun s => (Hang, s).

Definition out_of_fuel {A} : M A := fun s => (OutOfFuel, s).

Definition bind {A B} (c : M A) (k : A -> M B) : M B :=
  fun s =>
    match c s with
    | (Ret a, s') => k a s'
    | (Raise e, s') => (Raise e, s')
    | (Hang, s') => (Hang, s')
    | (OutOfFuel, s') => (OutOfFuel, s')
    end.

Declare Scope run_scope.
Delimit Scope run_scope with run.
Notation "x <- c ;; k" := (bind c (fun x => k))
  (at level 100, c at next level, right associativity) : run_scope.
Notation "c ;; k" := (bind c (fun _ => k))
  (at level 100, right associativity) : run_scope.

(** [try: c  except <handles>: h]. *)
Definition try_except {A} (c : M A) (handles : exn -> bool) (h : exn -> M A) : M A :=
  fun s =>
    match c s with
    | (Raise e, s') => if handles e then h e s' else (Raise e, s')
    | r => r
    end.

(** [try: c  finally: f].  The block [f] runs when [c] returns or raises;
    an exception of [f] replaces the pending one. *)
Definition try_finally {A} (c : M A) (f : M unit) : M A :=
  fun s =>
    match c s with
    | (Ret a, s') => bind f (fun _ => ret a) s'
    | (Raise e, s') => bind f (fun _ => raise e) s'
    | r => r
    end.

Definition emit (e : event) : M unit := fun s => (Ret tt, emit_state e s).

Definition get_history : M (list event) := fun s => (Ret (history s), s).

Definition get_client : M bool := fun s => (Ret (client s), s).

Definition set_client (b : bool) : M unit :=
  fun s => (Ret tt, {| history := history s; client := b |}).

Definition of_result {A} (r : exn + A) : M A :=
  match r with inl e => raise e | inr a => ret a end.

Definition of_status (r : option exn) : M unit :=
  match r with Some e => raise e | None => ret tt end.

(** The carriage return that ends the progress messages. *)
Definition CR : string := String (ascii_of_nat 13) EmptyString.

(** [print(...)] and the log sink.  A [Print] event holds the message, not
    the terminator given by [end].  Both sinks of the package, [print] and
    the closure of the message-socket server, print the message; the
    closure also schedules sending it to the peer. *)
Definition print (s : string) : M unit := emit (Print s).

Definition log (l : line) : M unit := emit (Log l).

(** [dict.__getitem__]: [KeyError] for a missing key. *)
Definition getitem (d : gmap string value) (k : string) : M value :=
  match d !! k with Some v => ret v | None => raise KeyError end.

Section Client.
Variable w : World.

Local Open Scope run_scope.

(** An attribute access on [self.client] while it is [None]. *)
Definition with_client {A} (c : M A) : M A :=
  b <- get_client ;;
  if b then c else raise AttributeError.

Definition client_connect (timeout : value) : M unit :=
  with_client (emit (Connect timeout) ;; h <- get_history ;;
               of_status (connect_result w h)).

Definition client_get_services : M (list (string * list (string * string))) :=
  with_client (emit GetServices ;; h <- get_history ;; of_result (services_result w h)).

Definition client_read_gatt_char (uuid : GattCharacteristics) : M (list byte) :=
  with_client (emit (ReadGattChar uuid) ;; h <- get_history ;;
               of_result (read_result w h uuid)).

Definition client_write_gatt_char (uuid : GattCharacteristics) (data : list byte) : M unit :=
  with_client (emit (WriteGattChar uuid data) ;; h <- get_history ;;
               of_status (write_result w h uuid data)).

Definition client_start_notify (uuid : GattCharacteristics) : M unit :=
  with_client (emit (StartNotify uuid) ;; h <- get_history ;;
               of_status (start_notify_result w h)).

Definition client_stop_notify (uuid : GattCharacteristics) : M unit :=
  with_client (emit (StopNotify uuid) ;; h <- get_history ;;
               of_status (stop_notify_result w h)).

Definition client_is_connected : M bool :=
  with_client (emit IsConnected ;; h <- get_history ;; ret (is_connected_result w h)).

Definition client_disconnect : M unit :=
  with_client (emit Disconnect ;; h <- get_history ;; of_status (disconnect_result w h)).

(** [asyncio.sleep(seconds)], in milliseconds. *)
Definition sleep (ms : Z) : M unit :=
  emit (Sleep ms) ;; h <- get_history ;; of_status (sleep_result w h).

(** Awaiting what never completes by itself: a fresh future, a server's
    accept loop.  It ends only when the world interrupts it. *)
Definition wait_forever {A} : M A :=
  h <- get_history ;;
  match interrupt w h with
  | Some e => raise e
  | None => hang
  end.

End Client.

End Effects.

(* ===================================================================== *)
(** ** [bluetooth.py]: class [BluetoothAdapter] *)
(* ===================================================================== *)

Module Bluetooth.

Import Py Effects.
Local Open Scope run_scope.

(** [struct.unpack("<Hh", data)] and [struct.pack("<H", n)] as statements. *)
Definition unpack (data : list byte) : M (Z * Z) :=
  match Struct.unpack_Hh data with
  | Some p => ret p
  | None => raise StructError
  end.

Definition pack (n : Z) : M (list byte) :=
  match Struct.pack_H n with
  | Some bs => ret bs
  | None => raise StructError
  end.

(** [mm - self.base_height] on a value of a mapping: integers and booleans
    are numbers, anything else raises [TypeError]. *)
Definition mm_to_raw_value (base_height : Z) (v : scalar) : exn + Z :=
  match v with
  | SInt n => inr (UnitConverter.mm_to_raw base_height n)
  | SBool b => inr (UnitConverter.mm_to_raw base_height (if b then 1 else 0))
  | SNone | SStr _ => inl TypeError
  end.

(** [favourites.get(key)]: a scalar has no [get]; a mapping is no key. *)
Definition dict_get (favourites key : value) : M (option scalar) :=
  match favourites with
  | Scalar _ => raise AttributeError
  | Mapping d =>
      match key with
      | Mapping _ => raise TypeError
      | Scalar (SStr k) => ret (d !! k)
      | Scalar _ => ret None
      end
  end.

Section BluetoothAdapter.
(** The world the adapter talks to, and the two constructor arguments. *)
Variable w : World.
Variable base_height : Z.
Variable config : gmap string value.

(** [bytearray(struct.pack("<H", 255))] and [... 254]. *)
Definition stop_command : list byte := [xff; x00].
Definition wake_command : list byte := [xfe; x00].

Definition get_height_speed : M (Z * Z) :=
  data <- client_read_gatt_char w UUID_HEIGHT ;;
  unpack data.

Definition get_height_data_from_notification (data : list byte) : M unit :=
  p <- unpack data ;;
  print (render base_height (HeightSpeedLine (fst p) (snd p))).

Definition wake_up : M unit :=
  client_write_gatt_char w UUID_COMMAND wake_command.

Definition move_to_target (target : Z) : M unit :=
  encoded_target <- pack target ;;
  client_write_gatt_char w UUID_REFERENCE_INPUT encoded_target.

Definition stop : M unit :=
  try_except (client_write_gatt_char w UUID_COMMAND stop_command)
    is_BleakError (fun _ => ret tt).

Definition subscribe (uuid : GattCharacteristics) : M unit :=
  client_start_notify w uuid.

Definition unsubscribe (uuid : GattCharacteristics) : M unit :=
  try_except (client_stop_notify w uuid) is_KeyError (fun _ => ret tt).

Definition scan : M (list string) :=
  print ("Scanning" ++ CR) ;;
  adapter_name <- getitem config "adapter_name" ;;
  scan_timeout <- getitem config "scan_timeout" ;;
  emit Discover ;;
  h <- get_history ;;
  devices <- of_result (discover_result w h) ;;
  adapter_name <- getitem config "adapter_name" ;;
  emit (PrintFormat "Found {} devices using {}"
          [Scalar (SInt (Z.of_nat (length devices))); adapter_name]) ;;
  (fix each (ds : list string) : M unit :=
     match ds with
     | [] => ret tt
     | d :: ds' => print d ;; each ds'
     end) devices ;;
  ret devices.

(** The loop of [move_to].  [current_height] is assigned once, before the
    loop; the body reads the telemetry into [height] and [speed] and
    leaves [current_height] as it is, so the recursive call passes it on
    unchanged. *)
Fixpoint move_to_loop (fuel : nat) (current_height target : Z) : M unit :=
  if current_height <? target then
    match fuel with
    | O => out_of_fuel
    | S fuel' =>
        move_to_target target ;;
        sleep w 500 ;;
        p <- get_height_speed ;;
        log (HeightSpeedLine (fst p) (snd p)) ;;
        move_to_loop fuel' current_height target
    end
  else ret tt.

Definition move_to (target : Z) (fuel : nat) : M unit :=
  data <- client_read_gatt_char w UUID_HEIGHT ;;
  p <- unpack data ;;
  let initial_height := fst p in
  if initial_height =? target then ret tt
  else
    wake_up ;;
    stop ;;
    let current_height := initial_height in
    move_to_loop fuel current_height target.

Fixpoint print_characteristics (cs : list (string * string)) : M unit :=
  match cs with
  | [] => ret tt
  | (uuid, description) :: cs' =>
      print ("  - " ++ uuid ++ ":" ++ description) ;;
      print_characteristics cs'
  end.

Fixpoint print_services (ss : list (string * list (string * string))) : M unit :=
  match ss with
  | [] => ret tt
  | (uuid, cs) :: ss' =>
      print (uuid ++ ":") ;;
      print_characteristics cs ;;
      print_services ss'
  end.

Definition connect : M unit :=
  try_except
    (print ("Connecting" ++ CR) ;;
     b <- get_client ;;
     (if negb b then
        mac <- getitem config "mac_address" ;;
        adapter <- getitem config "adapter_name" ;;
        emit (NewClient mac adapter) ;;
        set_client true
      else ret tt) ;;
     timeout <- getitem config "connection_timeout" ;;
     client_connect w timeout ;;
     mac <- getitem config "mac_address" ;;
     emit (PrintFormat "Connected {}" [mac]) ;;
     services <- client_get_services w ;;
     print "Received the services:" ;;
     print_services services)
    is_BleakError
    (fun e =>
       print "Connecting failed" ;;
       emit (PrintExn "{}" e) ;;
       raise (SystemExit 1)).

Definition disconnect : M unit :=
  c <- client_is_connected w ;;
  if c then client_disconnect w else ret tt.

(** The report at the end of [run_command], under [if target:]. *)
Definition final_report (target : option Z) : M unit :=
  match target with
  | Some t =>
      if negb (t =? 0) then
        data <- client_read_gatt_char w UUID_HEIGHT ;;
        p <- unpack data ;;
        log (FinalHeightLine (fst p) t)
      else ret tt
  | None => ret tt
  end.

(** [run_command(config, log)]; the parameter shadows [self.config]. *)
Definition run_command (config : gmap string value) (fuel : nat) : M unit :=
  data <- client_read_gatt_char w UUID_HEIGHT ;;
  p <- unpack data ;;
  let initial_height := fst p in
  log (HeightLine initial_height) ;;
  if truthy_opt (config !! "watch") then
    log WatchingLine ;;
    subscribe UUID_HEIGHT ;;
    @wait_forever w unit ;;
    final_report None
  else if truthy_opt (config !! "move_to") then
    let favourites := default (Mapping ∅) (config !! "favourites") in
    key <- getitem config "move_to" ;;
    favourite_value <- dict_get favourites key ;;
    match key with
    | Mapping _ => raise TypeError
    | Scalar k =>
        if truthy_opt (Scalar <$> favourite_value) then
          target <- of_result (mm_to_raw_value base_height (default SNone favourite_value)) ;;
          log (MovingFavouriteLine k) ;;
          move_to target fuel ;;
          final_report (Some target)
        else
          r <- try_except
                 (n <- of_result (int k) ;;
                  let target := UnitConverter.mm_to_raw base_height n in
                  log (MovingHeightLine k) ;;
                  ret (Some target))
                 is_ValueError
                 (fun _ => log (NotValidLine k) ;; ret None) ;;
          match r with
          | None => ret tt
          | Some target =>
              move_to target fuel ;;
              final_report (Some target)
          end
    end
  else final_report None.

End BluetoothAdapter.

End Bluetooth.

(* ===================================================================== *)
(** ** [config.py]: class [UserConfig] *)
(* ===================================================================== *)

Module Config.

Import Py Effects.
Local Open Scope run_scope.

(** [DEFAULT_CONFIG]. *)
Definition DEFAULT_CONFIG : gmap string value :=
  {[ "mac_address" := Scalar (SStr EmptyString);
     "base_height" := Scalar (SInt 620);
     "movement_range" := Scalar (SInt 650);
     "adapter_name" := Scalar (SStr "hci0");
     "scan_timeout" := Scalar (SInt 5);
     "connection_timeout" := Scalar (SInt 10);
     "movement_timeout" := Scalar (SInt 30);
     "server_address" := Scalar (SStr "127.0.0.1");
     "server_port" := Scalar (SInt 9123);
     "favourites" := Mapping ∅ ]}.

(** What [yaml.safe_load] makes of a file: a mapping, nothing at all (an
    empty document), or a [YAMLError]. *)
Inductive document :=
| YamlMapping (d : gmap string value)
| YamlEmpty
| YamlError.

(** The numbers among the scalars: [bool] is a subclass of [int]. *)
Definition number (v : value) : option Z :=
  match v with
  | Scalar (SInt n) => Some n
  | Scalar (SBool b) => Some (if b then 1 else 0)
  | _ => None
  end.

(** [a <= b]; ordering is defined here on numbers and raises [TypeError]
    on any other pair. *)
Definition le (a b : value) : M bool :=
  match number a, number b with
  | Some x, Some y => ret (x <=? y)
  | _, _ => raise TypeError
  end.

(** [a + b] on numbers and on two strings. *)
Definition add (a b : value) : M value :=
  match number a, number b with
  | Some x, Some y => ret (Scalar (SInt (x + y)))
  | _, _ =>
      match a, b with
      | Scalar (SStr x), Scalar (SStr y) => ret (Scalar (SStr (x ++ y)))
      | _, _ => raise TypeError
      end
  end.

Definition upper_ascii (c : ascii) : ascii :=
  let n := nat_of_ascii c in
  if ((97 <=? n) && (n <=? 122))%nat then ascii_of_nat (n - 32) else c.

(** [str.upper] on ASCII text. *)
Fixpoint upper (s : string) : string :=
  match s with
  | EmptyString => EmptyString
  | String c r => String (upper_ascii c) (upper r)
  end.

Section UserConfig.

(** [DEFAULT_CONFIG_PATH], the path of the example file shipped with the
    package, and [sys.platform]. *)
Variable DEFAULT_CONFIG_PATH : string.
Variable EXAMPLE_CONFIG_PATH : string.
Variable platform : string.

Definition _copy_default_config (fs : gmap string document) : M (gmap string document) :=
  match fs !! DEFAULT_CONFIG_PATH with
  | Some _ => ret fs
  | None =>
      match fs !! EXAMPLE_CONFIG_PATH with
      | Some example => ret (<[DEFAULT_CONFIG_PATH := example]> fs)
      | None => raise FileNotFoundError
      end
  end.

(** [os.path.isfile(path)]. *)
Definition isfile (fs : gmap string document) (path : string) : bool :=
  bool_decide (is_Some (fs !! path)).

(** [_read_custom_file(path)]: [self.config.update(config_file)].  Updating
    with the [None] of an empty document raises [TypeError]. *)
Definition _read_custom_file (fs : gmap string document) (path : string)
    (config : gmap string value) : M (gmap string value) :=
  match fs !! path with
  | None => raise FileNotFoundError
  | Some YamlError =>
      print "Reading config.yaml failed:" ;;
      emit (PrintExn "{}" YAMLError) ;;
      raise (SystemExit 1)
  | Some YamlEmpty => raise TypeError
  | Some (YamlMapping config_file) => ret (config_file ∪ config)
  end.

(** [UserConfig(args)]: the defaults, updated with the file, updated with
    the arguments.  The result is [self.config].  The constructor ends with
    [self.config.update(args)]; it does not call [_validate_config]. *)
Definition __init__ (fs : gmap string document) (args : gmap string value)
  : M (gmap string value) :=
  fs <- _copy_default_config fs ;;
  let config := DEFAULT_CONFIG in
  p <- getitem args "config" ;;
  config_path <- match p with
                 | Scalar (SStr path) => ret path
                 | _ => raise TypeError
                 end ;;
  config <- (if negb (String.eqb config_path EmptyString) && isfile fs config_path
             then _read_custom_file fs config_path config
             else print "No custom config file provided or not found!" ;; ret config) ;;
  ret (args ∪ config).

Definition _log_error (message : event) : M unit :=
  emit message ;;
  raise (SystemExit 1).

(** One of the two offset checks of [_validate_config]. *)
Definition validate_offset (offset_key height_key template : string)
    (config : gmap string value) : M (gmap string value) :=
  match config !! offset_key with
  | Some offset =>
      lower <- le (Scalar (SInt 0)) offset ;;
      within <- (if lower then
                   movement_range <- getitem config "movement_range" ;;
                   le offset movement_range
                 else ret false) ;;
      (if negb within then
         movement_range <- getitem config "movement_range" ;;
         _log_error (PrintFormat template [movement_range])
       else ret tt) ;;
      base_height <- getitem config "base_height" ;;
      height <- add base_height offset ;;
      ret (<[height_key := height]> config)
  | None => ret config
  end.

(** [_validate_config()]; the result is [self.config] after the call. *)
Definition _validate_config (config : gmap string value) : M (gmap string value) :=
  mac_address <- getitem config "mac_address" ;;
  (if negb (truthy mac_address)
   then _log_error (Print "Mac address must be provided")
   else ret tt) ;;
  config <- validate_offset "sit_height_offset" "sit_height"
              "Sit height offset must be within [0, {}]" config ;;
  config <- validate_offset "stand_height_offset" "stand_height"
              "Stand height offset must be within [0, {}]" config ;;
  mac_address <- getitem config "mac_address" ;;
  config <- match mac_address with
            | Scalar (SStr mac) => ret (<["mac_address" := Scalar (SStr (upper mac))]> config)
            | _ => raise AttributeError
            end ;;
  if String.eqb platform "win32"
  then ret (<["adapter_name" := Scalar (SStr "default adapter")]> config)
  else ret config.

End UserConfig.

End Config.

(* ===================================================================== *)
(** ** [controller.py]: class [LinakController] *)
(* ===================================================================== *)

Module Controller.

Import Py Effects.
Local Open Scope run_scope.

(** [get_parsed_args()] of [helper.py]: the parsed namespace without the
    entries that are [None]. *)
Definition get_parsed_args (namespace : gmap string value) : gmap string value :=
  filter (fun kv => kv.2 <> Scalar SNone) namespace.

(** [{**base, **forwarded}]: the forwarded keys win. *)
Definition merge (base forwarded : gmap string value) : gmap string value :=
  forwarded ∪ base.

Section LinakController.

Variable w : World.
(** [self.user_config.config] and the base height of [self.unit_converter]. *)
Variable user_config : gmap string value.
Variable base_height : Z.

Fixpoint print_all (messages : list string) : M unit :=
  match messages with
  | [] => ret tt
  | m :: ms => print m ;; print_all ms
  end.

(** [forward_command()]: send the allowed keys to a server and print what
    comes back until the peer closes. *)
Definition forward_command : M unit :=
  let allowed_keys := ["move_to"] in
  let forwarded_config : gmap string value :=
    list_to_map (omap (fun key => (fun v => (key, v)) <$> user_config !! key) allowed_keys) in
  server_address <- getitem user_config "server_address" ;;
  server_port <- getitem user_config "server_port" ;;
  emit (Forward forwarded_config) ;;
  h <- get_history ;;
  print_all (fst (forward_result w h)) ;;
  of_status (snd (forward_result w h)).

(** [while True: await asyncio.sleep(1000)]. *)
Fixpoint sleep_forever (fuel : nat) : M unit :=
  match fuel with
  | O => out_of_fuel
  | S fuel' => sleep w 1000000 ;; sleep_forever fuel'
  end.

(** [run_server()].  Requests are served by [run_forwarded_command] in tasks
    of their own. *)
Definition run_server (fuel : nat) : M unit :=
  with_client (emit SetDisconnectedCallback) ;;
  server_address <- getitem user_config "server_address" ;;
  server_port <- getitem user_config "server_port" ;;
  emit (Listen server_address server_port) ;;
  h <- get_history ;;
  of_status (listen_result w h) ;;
  print "Server listening" ;;
  sleep_forever fuel.

(** [run_tcp_server(client, config)]; [serve_forever] returns only by an
    exception. *)
Definition run_tcp_server : M unit :=
  with_client (emit SetDisconnectedCallback) ;;
  server_address <- getitem user_config "server_address" ;;
  server_port <- getitem user_config "server_port" ;;
  emit (Listen server_address server_port) ;;
  h <- get_history ;;
  of_status (listen_result w h) ;;
  print "TCP Server listening" ;;
  @wait_forever w unit.

(** The body of [run_forwarded_command] for one text message, already
    decoded by [json.loads]: the message-socket variant.  Every [Log] event
    of [run_command] is also sent to the peer. *)
Definition run_forwarded_command (forwarded_config : gmap string value)
    (fuel : nat) : M unit :=
  print "Received command" ;;
  let merged_config := merge user_config forwarded_config in
  Bluetooth.run_command w base_height merged_config fuel ;;
  sleep w 1000.

(** The body of [run_tcp_forwarded_command] for a decoded request. *)
Definition run_tcp_forwarded_command (forwarded_config : gmap string value)
    (fuel : nat) : M unit :=
  print "Received command" ;;
  let merged_config := merge user_config forwarded_config in
  Bluetooth.run_command w base_height merged_config fuel.

(** The [finally] block of [run]. *)
Definition cleanup : M unit :=
  b <- get_client ;;
  if b then
    print (CR ++ "Disconnecting" ++ CR) ;;
    Bluetooth.stop w ;;
    Bluetooth.disconnect w ;;
    print "Disconnected!"
  else ret tt.

(** The [try] block of [run].  Its last branch calls [run_command()] with no
    argument, while the method requires [config]: the call raises
    [TypeError] before the body of [run_command] starts. *)
Definition run_body (fuel : nat) : M unit :=
  forward <- getitem user_config "forward" ;;
  if truthy forward then forward_command
  else
    scan_adapter <- getitem user_config "scan_adapter" ;;
    if truthy scan_adapter then
      Bluetooth.scan w user_config ;; ret tt
    else
      Bluetooth.connect w user_config ;;
      server <- getitem user_config "server" ;;
      if truthy server then run_server fuel
      else
        tcp_server <- getitem user_config "tcp_server" ;;
        if truthy tcp_server then run_tcp_server
        else raise TypeError.

(** [run()]: [except KeyboardInterrupt: raise], [except Exception as e:]
    report and go on, [finally:] clean up. *)
Definition run (fuel : nat) : M unit :=
  try_finally
    (try_except (run_body fuel)
       (fun e => is_KeyboardInterrupt e || is_Exception e)
       (fun e =>
          if is_KeyboardInterrupt e then raise e
          else
            emit (PrintExn "Something unexpected went wrong: {}" e) ;;
            emit (PrintExn "traceback" e)))
    cleanup.

End LinakController.

Section Main.

Variable w : World.
Variable DEFAULT_CONFIG_PATH : string.
Variable EXAMPLE_CONFIG_PATH : string.

(** [LinakController()]: parse, build the configuration, the converter and
    the adapter, then [asyncio.run(self.run())].  The handler
    [except (KeyboardInterrupt | CancelledError)] evaluates [|] on two
    classes when an exception arrives, and the result is no exception class:
    whatever [run] raises becomes a [TypeError]. *)
Definition __init__ (fs : gmap string Config.document)
    (namespace : gmap string value) (fuel : nat) : M unit :=
  let args := get_parsed_args namespace in
  user_config <- Config.__init__ DEFAULT_CONFIG_PATH EXAMPLE_CONFIG_PATH fs args ;;
  base_height <- getitem user_config "base_height" ;;
  try_except (run w user_config fuel)
    (fun _ => true)
    (fun _ => raise TypeError).

(** The exit status of the process, when it ends. *)
Definition exit_status (o : outcome unit) : option Z :=
  match o with
  | Ret _ => Some 0
  | Raise (SystemExit code) => Some code
  | Raise _ => Some 1
  | Hang | OutOfFuel => None
  end.

(** A fresh process: no event yet, no client object. *)
Definition initial_state : state := {| history := []; client := false |}.

End Main.

End Controller.

(* ===================================================================== *)
(** ** What a history shows, and some worlds to run the program in *)
(* ===================================================================== *)

Module Observations.

Import Py Effects.

(** The writes to the peripheral, oldest first. *)
Definition writes (h : list event) : list (GattCharacteristics * list byte) :=
  omap (fun e => match e with WriteGattChar u d => Some (u, d) | _ => None end) h.

(** The payloads written to the reference-input endpoint. *)
Definition reference_writes (h : list event) : list (list byte) :=
  omap (fun e => match e with
                 | WriteGattChar UUID_REFERENCE_INPUT d => Some d
                 | _ => None
                 end) h.

(** The lines given to the log sink; the message-socket server sends the
    text of each of them to the peer. *)
Definition logged (h : list event) : list line :=
  omap (fun e => match e with Log l => Some l | _ => None end) h.

Definition response_stream (base_height : Z) (h : list event) : list string :=
  render base_height <$> logged h.


(** The first client operation of [stop()] and of [disconnect()]. *)
Definition is_stop_call (e : event) : bool :=
  match e with
  | WriteGattChar UUID_COMMAND d => bool_decide (d = Bluetooth.stop_command)
  | _ => false
  end.

Definition is_disconnect_call (e : event) : bool :=
  match e with IsConnected => true | _ => false end.

(** The calls of [stop()] and [disconnect()] a history shows, in order. *)
Definition cleanup_calls (h : list event) : list event :=
  List.filter (fun e => is_stop_call e || is_disconnect_call e) h.

(** Every event a computation adds to the history satisfies [P]. *)
Definition emits (P : event -> Prop) {A} (c : M A) : Prop :=
  forall s, exists evs, history (snd (c s)) = history s ++ evs /\ Forall P evs.

Definition not_reference_write (e : event) : Prop :=
  match e with WriteGattChar UUID_REFERENCE_INPUT _ => False | _ => True end.



(** The final state of a computation is related to its initial state. *)
Definition follows (R : state -> state -> Prop) {A} (c : M A) : Prop :=
  forall s, R s (snd (c s)).

Definition is_new_client (e : event) : bool :=
  match e with NewClient _ _ => true | _ => false end.

Definition is_connect (e : event) : bool :=
  match e with Connect _ => true | _ => false end.

(** An event that is neither a call of [stop()] or [disconnect()], nor the
    creation of the client object, nor a connection attempt. *)
Definition plain (e : event) : Prop :=
  is_stop_call e = false /\ is_disconnect_call e = false
  /\ is_new_client e = false /\ is_connect e = false.

(** From [s] to [s']: events were added, none of them a call of [stop()] or
    [disconnect()]; the adapter holds a client afterwards exactly when it
    held one before or one was created on the way; and it holds one if a
    connection was attempted on the way. *)
Definition try_block_step (s s' : state) : Prop :=
  exists evs,
    history s' = history s ++ evs
    /\ cleanup_calls evs = []
    /\ (client s' = true <-> client s = true \/ existsb is_new_client evs = true)
    /\ (existsb is_connect evs = true -> client s' = true).

(** A computation has ended when it returned or raised. *)
Definition ended {A} (o : outcome A) : bool :=
  match o with Ret _ | Raise _ => true | Hang | OutOfFuel => false end.

(** The raw target [run_command] computes for a configuration that asks
    for a move: from the favourite of that name when it has a true value,
    from the number otherwise. *)
Definition computed_target (base_height : Z) (config : gmap string value) : option Z :=
  if truthy_opt (config !! "watch") then None
  else
    match config !! "move_to", default (Mapping ∅) (config !! "favourites") with
    | Some (Scalar k), Mapping d =>
        if truthy k then
          let favourite_value := match k with SStr name => d !! name | _ => None end in
          if truthy_opt (Scalar <$> favourite_value)
          then match Bluetooth.mm_to_raw_value base_height (default SNone favourite_value) with
               | inr t => Some t
               | inl _ => None
               end
          else match int k with
               | inr n => Some (UnitConverter.mm_to_raw base_height n)
               | inl _ => None
               end
        else None
    | _, _ => None
    end.

(** The line that announces the move. *)
Definition moving_line (config : gmap string value) : option line :=
  match config !! "move_to", default (Mapping ∅) (config !! "favourites") with
  | Some (Scalar k), Mapping d =>
      let favourite_value := match k with SStr name => d !! name | _ => None end in
      Some (if truthy_opt (Scalar <$> favourite_value)
            then MovingFavouriteLine k else MovingHeightLine k)
  | _, _ => None
  end.

(** A computation has returned normally. *)
Definition returned {A} (o : outcome A) : bool :=
  match o with Ret _ => true | _ => false end.

(** The exception a computation raised, if it raised one, satisfies [p]. *)
Definition raises_only {A} (p : exn -> bool) (o : outcome A) : Prop :=
  match o with Raise e => p e = true | _ => True end.

(** An event on the client object or on the link to the desk. *)
Definition is_device_event (e : event) : bool :=
  match e with
  | NewClient _ _ | Connect _ | GetServices | ReadGattChar _ | WriteGattChar _ _
  | StartNotify _ | StopNotify _ | IsConnected | Disconnect
  | SetDisconnectedCallback => true
  | _ => false
  end.

(** From [s] to [s']: the adapter holds what it held, and every event
    added passes the test [p]. *)
Definition steady (p : event -> bool) (s s' : state) : Prop :=
  client s' = client s
  /\ exists evs, history s' = history s ++ evs /\ forallb p evs = true.

(** No event on the client or the link was added. *)
Definition off_line (e : event) : bool := negb (is_device_event e).

(** No client object was created. *)
Definition no_new_client (e : event) : bool := negb (is_new_client e).



(** An integer offset, if the configuration has it, lies in [[0, r]]. *)
Definition offset_in_range (config : gmap string value) (offset_key : string)
    (r : Z) : bool :=
  match config !! offset_key with
  | Some (Scalar (SInt o)) => (0 <=? o) && (o <=? r)
  | _ => true
  end.

(** The first thing wrong with a configuration, in the order of the checks:
    the address, the sit offset, the stand offset. *)
Definition first_complaint (config : gmap string value) (mac : string) (r : Z)
  : option event :=
  if String.eqb mac EmptyString then Some (Print "Mac address must be provided")
  else if negb (offset_in_range config "sit_height_offset" r)
  then Some (PrintFormat "Sit height offset must be within [0, {}]" [Scalar (SInt r)])
  else if negb (offset_in_range config "stand_height_offset" r)
  then Some (PrintFormat "Stand height offset must be within [0, {}]" [Scalar (SInt r)])
  else None.

End Observations.

Module Scenarios.

Import Py Effects.

(** A telemetry frame for a position and a speed. *)
Definition frame (height speed : Z) : list byte :=
  [Struct.byte_of_Z height; Struct.byte_of_Z (Z.shiftr height 8);
   Struct.byte_of_Z speed; Struct.byte_of_Z (Z.shiftr speed 8)].

(** The position of a desk that is where it was last told to go. *)
Definition position_after (initial : Z) (h : list event) : Z :=
  fold_left (fun pos e =>
               match e with
               | WriteGattChar UUID_REFERENCE_INPUT [lo; hi] => Struct.u16 lo hi
               | _ => pos
               end) h initial.

(** A desk that works: every operation succeeds, and the desk reaches a
    target as soon as the target is written. *)
Definition obedient_desk (initial : Z) : World :=
  {| connect_result := fun _ => None;
     services_result := fun _ => inr [];
     read_result := fun h _ => inr (frame (position_after initial h) 0);
     write_result := fun _ _ _ => None;
     start_notify_result := fun _ => None;
     stop_notify_result := fun _ => None;
     is_connected_result := fun _ => true;
     disconnect_result := fun _ => None;
     sleep_result := fun _ => None;
     discover_result := fun _ => inr [];
     forward_result := fun _ => ([], None);
     listen_result := fun _ => None;
     interrupt := fun _ => None |}.

(** A desk out of reach: connecting fails, and so does every operation on
    the link. *)
Definition unreachable_desk : World :=
  {| connect_result := fun _ => Some BleakError;
     services_result := fun _ => inl BleakError;
     read_result := fun _ _ => inl BleakError;
     write_result := fun _ _ _ => Some BleakError;
     start_notify_result := fun _ => Some BleakError;
     stop_notify_result := fun _ => Some BleakError;
     is_connected_result := fun _ => false;
     disconnect_result := fun _ => None;
     sleep_result := fun _ => None;
     discover_result := fun _ => inr [];
     forward_result := fun _ => ([], None);
     listen_result := fun _ => None;
     interrupt := fun _ => None |}.

(** The configuration of a relay server: the defaults, an address, and the
    flags as the argument parser sets them for [--server]. *)
Definition relay_base_config : gmap string value :=
  {[ "server" := Scalar (SBool true);
     "tcp_server" := Scalar (SBool false);
     "forward" := Scalar (SBool false);
     "scan_adapter" := Scalar (SBool false);
     "watch" := Scalar (SBool false);
     "debug" := Scalar (SBool false);
     "mac_address" := Scalar (SStr "AA:BB:CC:DD:EE:FF") ]} ∪ Config.DEFAULT_CONFIG.

(** A local run with no action flag: the arguments as the parser leaves
    them, over the defaults. *)
Definition direct_config : gmap string value :=
  {[ "server" := Scalar (SBool false);
     "tcp_server" := Scalar (SBool false);
     "forward" := Scalar (SBool false);
     "scan_adapter" := Scalar (SBool false);
     "watch" := Scalar (SBool false);
     "debug" := Scalar (SBool false);
     "config" := Scalar (SStr "config.yaml");
     "mac_address" := Scalar (SStr "AA:BB:CC:DD:EE:FF") ]} ∪ Config.DEFAULT_CONFIG.

(** The parsed command line of [linak-controller --config config.yaml]:
    every option that was not given is [None], every flag is [False]. *)
Definition plain_namespace : gmap string value :=
  list_to_map
    [ ("mac_address", Scalar SNone);
      ("base_height", Scalar SNone);
      ("movement_range", Scalar SNone);
      ("adapter_name", Scalar SNone);
      ("scan_timeout", Scalar SNone);
      ("connection_timeout", Scalar SNone);
      ("movement_timeout", Scalar SNone);
      ("forward", Scalar (SBool false));
      ("server_address", Scalar SNone);
      ("server_port", Scalar SNone);
      ("config", Scalar (SStr "config.yaml"));
      ("debug", Scalar (SBool false));
      ("watch", Scalar (SBool false));
      ("move_to", Scalar SNone);
      ("scan_adapter", Scalar (SBool false));
      ("server", Scalar (SBool false));
      ("tcp_server", Scalar (SBool false)) ].

Definition default_path : string := "~/.config/linak-controller/config.yaml".
Definition example_path : string := "linak_ble_controller/example/config.yaml".

(** A configuration file with a sit height offset below the interval
    [0, movement_range]. *)
Definition offset_file : gmap string value :=
  {[ "mac_address" := Scalar (SStr "AA:BB:CC:DD:EE:FF");
     "sit_height_offset" := Scalar (SInt (-1)) ]}.

(** A configuration file with a mac address in lower case. *)
Definition lowercase_file : gmap string value :=
  {[ "mac_address" := Scalar (SStr "aa:bb:cc:dd:ee:ff") ]}.

Definition files (config_file : gmap string value) : gmap string Config.document :=
  {[ "config.yaml" := Config.YamlMapping config_file;
     default_path := Config.YamlMapping ∅ ]}.

(** What [UserConfig(args)] builds from the plain command line and a
    configuration file: the arguments over the file over the defaults. *)
Definition built_config (config_file : gmap string value) : gmap string value :=
  Controller.get_parsed_args plain_namespace ∪ (config_file ∪ Config.DEFAULT_CONFIG).

(** A state in which the adapter holds a client. *)
Definition connected_state : state := {| history := []; client := true |}.

(** A request for the base height itself, and the state in which
    [run_command] leaves a desk standing at 1000 ticks after it. *)
Definition move_to_base_config : gmap string value :=
  {[ "move_to" := Scalar (SStr "620") ]}.

Definition after_move_to_base : state :=
  snd (Bluetooth.run_command (obedient_desk 1000) 620 move_to_base_config 3
         connected_state).

(** The override of a relay request, with the key as the forwarding client
    writes it and with the key as the specification spells it. *)
Definition override_move_to_100 : gmap string value :=
  {[ "move_to" := Scalar (SStr "100") ]}.

Definition override_hyphen_100 : gmap string value :=
  {[ "move-to" := Scalar (SStr "100") ]}.

(** One iteration of the loop of [move_to] on the obedient desk, for the
    target 100. *)
Definition iteration_100 : list event :=
  [WriteGattChar UUID_REFERENCE_INPUT [x64; x00]; Sleep 500;
   ReadGattChar UUID_HEIGHT; Log (HeightSpeedLine 100 0)].

(** A desk whose telemetry answers are two bytes short. *)
Definition short_frame_desk : World :=
  {| connect_result := fun _ => None;
     services_result := fun _ => inr [];
     read_result := fun _ _ => inr [x10; x27];
     write_result := fun _ _ _ => None;
     start_notify_result := fun _ => None;
     stop_notify_result := fun _ => None;
     is_connected_result := fun _ => true;
     disconnect_result := fun _ => None;
     sleep_result := fun _ => None;
     discover_result := fun _ => inr [];
     forward_result := fun _ => ([], None);
     listen_result := fun _ => None;
     interrupt := fun _ => None |}.


(** A room in which a scan finds two desks. *)
Definition room_with_two_desks : World :=
  {| connect_result := fun _ => None;
     services_result := fun _ => inr [];
     read_result := fun _ _ => inr (frame 1000 0);
     write_result := fun _ _ _ => None;
     start_notify_result := fun _ => None;
     stop_notify_result := fun _ => None;
     is_connected_result := fun _ => true;
     disconnect_result := fun _ => None;
     sleep_result := fun _ => None;
     discover_result := fun _ => inr ["AA:BB:CC:DD:EE:FF: Desk 1234";
                                      "11:22:33:44:55:66: Desk 5678"];
     forward_result := fun _ => ([], None);
     listen_result := fun _ => None;
     interrupt := fun _ => None |}.




(** A file system whose configuration file is no valid YAML. *)
Definition broken_files : gmap string Config.document :=
  {[ "config.yaml" := Config.YamlError;
     default_path := Config.YamlMapping ∅ ]}.

(** A fresh installation: only the example file of the package exists. *)
Definition fresh_files : gmap string Config.document :=
  {[ example_path := Config.YamlMapping lowercase_file ]}.


(** A forwarding client: [--forward --move-to stand] over the defaults. *)
Definition forward_config : gmap string value :=
  {[ "forward" := Scalar (SBool true);
     "move_to" := Scalar (SStr "stand") ]} ∪ direct_config.

End Scenarios.

(* ===================================================================== *)
(** * Properties *)
(* ===================================================================== *)

Module StructFacts.

Import Struct.

Lemma Z_of_byte_range b : 0 <= Z_of_byte b < 256.
Proof.
  unfold Z_of_byte. pose proof (Byte.to_N_bounded b) as H. lia.
Qed.

Lemma u16_range lo hi : 0 <= u16 lo hi <= 65535.
Proof.
  unfold u16.
  pose proof (Z_of_byte_range lo) as Hl. pose proof (Z_of_byte_range hi) as Hh.
  assert (Hlt : Z.lor (Z_of_byte lo) (Z.shiftl (Z_of_byte hi) 8) < 2 ^ 16).
  { apply Z.log2_lt_cancel. rewrite Z.log2_pow2 by lia.
    destruct (Z.eq_dec (Z.lor (Z_of_byte lo) (Z.shiftl (Z_of_byte hi) 8)) 0) as [E | NE].
    - rewrite E. simpl. lia.
    - rewrite Z.log2_lor.
      + apply Z.max_lub_lt.
        * destruct (Z.eq_dec (Z_of_byte lo) 0) as [-> | ?]; [simpl; lia |].
          apply Z.log2_lt_pow2; lia.
        * destruct (Z.eq_dec (Z_of_byte hi) 0) as [-> | ?]; [simpl; lia |].
          rewrite Z.shiftl_mul_pow2 by lia.
          apply Z.log2_lt_pow2; lia.
      + lia.
      + apply Z.shiftl_nonneg. lia. }
  split; [| change (2 ^ 16) with 65536 in Hlt; lia].
  apply Z.lor_nonneg. split; [lia |]. apply Z.shiftl_nonneg. lia.
Qed.

Lemma unpack_Hh_height_range data h s :
  unpack_Hh data = Some (h, s) -> 0 <= h <= 65535.
Proof.
  destruct data as [| b0 [| b1 [| b2 [| b3 [| ? ?]]]]]; simpl; try discriminate.
  intros [= <- _]. apply u16_range.
Qed.

Lemma pack_H_Some n bs : pack_H n = Some bs -> 0 <= n <= 65535.
Proof.
  unfold pack_H. destruct (0 <=? n) eqn:E1; destruct (n <=? 65535) eqn:E2;
    simpl; try discriminate. lia.
Qed.

Lemma pack_H_None n : n < 0 \/ 65535 < n -> pack_H n = None.
Proof.
  unfold pack_H. intros [H | H].
  - destruct (0 <=? n) eqn:E; [lia | reflexivity].
  - destruct (n <=? 65535) eqn:E; [lia |]. now rewrite andb_false_r.
Qed.

Example pack_255 : pack_H 255 = Some [xff; x00].
Proof. reflexivity. Qed.

Example pack_4660 : pack_H 4660 = Some [x34; x12].
Proof. reflexivity. Qed.

Example unpack_sample :
  unpack_Hh [x34; x12; xff; xff] = Some (4660, -1).
Proof. reflexivity. Qed.

End StructFacts.

Module PyFacts.

Import Py.

Example int_plain : int (SStr "100") = inr 100.
Proof. reflexivity. Qed.

Example int_padded : int (SStr "  -1_000 ") = inr (-1000).
Proof. reflexivity. Qed.

Example int_word : int (SStr "standing") = inl ValueError.
Proof. reflexivity. Qed.

Example int_empty : int (SStr EmptyString) = inl ValueError.
Proof. reflexivity. Qed.

Example int_trailing_underscore : int (SStr "12_") = inl ValueError.
Proof. reflexivity. Qed.

Example format_620 : format_f0 4 (6205 # 10) = " 620".
Proof. reflexivity. Qed.

Example format_622 : format_f0 4 (6215 # 10) = " 622".
Proof. reflexivity. Qed.

Example format_neg : format_f0 2 (-(4 # 10)) = "-0".
Proof. reflexivity. Qed.

End PyFacts.

Module UnitConverterFacts.

Import UnitConverter.

Lemma mm_to_raw_Q_inject b mm :
  (mm_to_raw_Q b (inject_Z mm) == inject_Z (mm_to_raw b mm))%Q.
Proof.
  unfold mm_to_raw_Q, mm_to_raw.
  unfold Z.sub. rewrite inject_Z_mult, inject_Z_plus, inject_Z_opp. ring.
Qed.







Example round_trip_1234 :
  Qred (mm_to_raw_Q 620 (raw_to_mm 620 1234)) = inject_Z 1234.
Proof. reflexivity. Qed.

Example raw_to_mm_1234 : Qred (raw_to_mm 620 1234) = (3717 # 5)%Q.
Proof. reflexivity. Qed.

End UnitConverterFacts.

Module EffectsFacts.

Import Py Effects Observations.

(** Unfolds the plumbing of the monad, in the goal and the hypotheses. *)
Ltac run_unfold :=
  unfold client_read_gatt_char, client_write_gatt_char, client_is_connected,
    client_disconnect, client_start_notify, sleep, with_client, log, print,
    of_result, of_status, get_history, get_client, emit, bind, ret, raise,
    emit_state in *;
  simpl in *.

Section Emits.

Variable P : event -> Prop.

Lemma emits_ret {A} (a : A) : emits P (ret a).
Proof. intros s. exists []. simpl. now rewrite app_nil_r. Qed.

Lemma emits_raise {A} (e : exn) : emits P (@raise A e).
Proof. intros s. exists []. simpl. now rewrite app_nil_r. Qed.


Lemma emits_out_of_fuel {A} : emits P (@out_of_fuel A).
Proof. intros s. exists []. simpl. now rewrite app_nil_r. Qed.

Lemma emits_get_history : emits P get_history.
Proof. intros s. exists []. simpl. now rewrite app_nil_r. Qed.

Lemma emits_get_client : emits P get_client.
Proof. intros s. exists []. simpl. now rewrite app_nil_r. Qed.

Lemma emits_set_client b : emits P (set_client b).
Proof. intros s. exists []. simpl. now rewrite app_nil_r. Qed.

Lemma emits_emit (e : event) : P e -> emits P (emit e).
Proof. intros H s. exists [e]. simpl. split; [reflexivity | now constructor]. Qed.

Lemma emits_bind {A B} (c : M A) (k : A -> M B) :
  emits P c -> (forall a, emits P (k a)) -> emits P (bind c k).
Proof.
  intros Hc Hk s. unfold bind.
  destruct (Hc s) as (evs1 & E1 & F1).
  destruct (c s) as [[a | e | |] s1]; simpl in *; eauto.
  destruct (Hk a s1) as (evs2 & E2 & F2).
  exists (evs1 ++ evs2). rewrite E2, E1, app_assoc.
  split; [reflexivity | now apply Forall_app].
Qed.


Lemma emits_of_result {A} (r : exn + A) : emits P (of_result r).
Proof. destruct r; [apply emits_raise | apply emits_ret]. Qed.

Lemma emits_of_status (r : option exn) : emits P (of_status r).
Proof. destruct r; [apply emits_raise | apply emits_ret]. Qed.

Lemma emits_getitem d k : emits P (getitem d k).
Proof. unfold getitem. destruct (d !! k); [apply emits_ret | apply emits_raise]. Qed.

Lemma emits_with_client {A} (c : M A) : emits P c -> emits P (with_client c).
Proof.
  intros H. unfold with_client. apply emits_bind; [apply emits_get_client |].
  intros []; [exact H | apply emits_raise].
Qed.

Lemma emits_print s : P (Print s) -> emits P (print s).
Proof. apply emits_emit. Qed.

Lemma emits_log l : P (Log l) -> emits P (log l).
Proof. apply emits_emit. Qed.

End Emits.

Lemma bind_returns {A B} (c : M A) (k : A -> M B) (s s' : state) (b : B) :
  bind c k s = (Ret b, s') ->
  exists a s1, c s = (Ret a, s1) /\ k a s1 = (Ret b, s').
Proof.
  unfold bind. destruct (c s) as [[a | e | |] s1]; try discriminate.
  intros H. now exists a, s1.
Qed.


End EffectsFacts.

Module MoveFacts.

Import Py Effects Bluetooth Observations Scenarios EffectsFacts.

Local Open Scope run_scope.


Lemma move_to_target_out_of_range (w : World) (target : Z) (s : state) :
  target < 0 \/ 65535 < target ->
  move_to_target w target s = (Raise StructError, s).
Proof.
  intros H. unfold move_to_target, pack, bind.
  rewrite (StructFacts.pack_H_None target H). reflexivity.
Qed.

(** C9.  A target that is negative or above 65535 has no two-byte unsigned
    encoding: [move_to_target] raises [struct.error] and leaves the state as
    it was, so nothing is written to the reference-input endpoint.  The raw
    value of every height below the base height is such a target. *)
Theorem move_to_target_needs_u16 (w : World) (target : Z) (s : state)
    (Hrange : target < 0 \/ 65535 < target) :
  move_to_target w target s = (Raise StructError, s)
  /\ reference_writes (history (snd (move_to_target w target s)))
     = reference_writes (history s)
  /\ (forall base_height mm : Z,
        mm < base_height ->
        move_to_target w (UnitConverter.mm_to_raw base_height mm) s
        = (Raise StructError, s)).
Proof.
  split; [now apply move_to_target_out_of_range |].
  split.
  - now rewrite move_to_target_out_of_range.
  - intros b mm Hlt. apply move_to_target_out_of_range.
    left. unfold UnitConverter.mm_to_raw. lia.
Qed.

(** The target -5200, on a desk that works. *)
Lemma move_to_target_needs_u16_witness :
  move_to_target (obedient_desk 0) (-5200) connected_state
  = (Raise StructError, connected_state)
  /\ reference_writes (history (snd (move_to_target (obedient_desk 0) (-5200) connected_state)))
     = reference_writes (history connected_state)
  /\ (forall base_height mm : Z,
        mm < base_height ->
        move_to_target (obedient_desk 0) (UnitConverter.mm_to_raw base_height mm)
          connected_state
        = (Raise StructError, connected_state)).
Proof.
  apply (move_to_target_needs_u16 (obedient_desk 0) (-5200) connected_state).
  left. lia.
Defined.

(** [move_to_target] returns only for a target in [0, 65535]. *)
Lemma move_to_target_returns_in_range (w : World) (target : Z) (s s' : state) :
  move_to_target w target s = (Ret tt, s') -> 0 <= target <= 65535.
Proof.
  intros H.
  destruct (Z_lt_dec target 0) as [Hn | Hn];
    [rewrite move_to_target_out_of_range in H by (now left); discriminate |].
  destruct (Z_lt_dec 65535 target) as [Hp | Hp];
    [rewrite move_to_target_out_of_range in H by (now right); discriminate |].
  lia.
Qed.

(** A target inside the range is encoded and written. *)
Lemma move_to_target_in_range (w : World) (target : Z) (s : state) :
  0 <= target <= 65535 -> client s = true ->
  exists data,
    Struct.pack_H target = Some data
    /\ history (snd (move_to_target w target s))
       = history s ++ [WriteGattChar UUID_REFERENCE_INPUT data].
Proof.
  intros Hr Hc. unfold move_to_target, pack, Struct.pack_H.
  destruct (0 <=? target) eqn:E1; [| lia].
  destruct (target <=? 65535) eqn:E2; [| lia]. simpl.
  eexists. split; [reflexivity |].
  run_unfold. rewrite Hc. simpl.
  destruct (write_result w _ _ _); reflexivity.
Qed.

(** C6.  When the position read at the start of [move_to] equals the
    target, [move_to] returns at once: the only event is that one telemetry
    read, and no endpoint is written. *)
Theorem move_to_at_target_returns (w : World) (target speed : Z) (fuel : nat)
    (s : state) (data : list byte)
    (Hclient : client s = true)
    (Hread : read_result w (history s ++ [ReadGattChar UUID_HEIGHT]) UUID_HEIGHT = inr data)
    (Hframe : Struct.unpack_Hh data = Some (target, speed)) :
  move_to w target fuel s = (Ret tt, emit_state (ReadGattChar UUID_HEIGHT) s)
  /\ writes (history (snd (move_to w target fuel s))) = writes (history s)
  /\ reference_writes (history (snd (move_to w target fuel s)))
     = reference_writes (history s).
Proof.
  assert (E : move_to w target fuel s = (Ret tt, emit_state (ReadGattChar UUID_HEIGHT) s)).
  { destruct s as [h c]. simpl in *. subst c.
    unfold move_to, unpack. run_unfold.
    rewrite Hread. simpl. rewrite Hframe. simpl.
    rewrite Z.eqb_refl. reflexivity. }
  rewrite E. split; [reflexivity |]. simpl.
  unfold writes, reference_writes. rewrite !omap_app. simpl.
  now rewrite !app_nil_r.
Qed.

(** A desk at 700 ticks asked to go to 700. *)
Lemma move_to_at_target_returns_witness :
  move_to (obedient_desk 700) 700 5 connected_state
  = (Ret tt, emit_state (ReadGattChar UUID_HEIGHT) connected_state)
  /\ writes (history (snd (move_to (obedient_desk 700) 700 5 connected_state)))
     = writes (history connected_state)
  /\ reference_writes (history (snd (move_to (obedient_desk 700) 700 5 connected_state)))
     = reference_writes (history connected_state).
Proof.
  apply (move_to_at_target_returns (obedient_desk 700) 700 0 5 connected_state
           (frame 700 0)); reflexivity.
Defined.

(** Whatever the world does, the loop of [move_to] never returns once it is
    entered: its guard compares [current_height], which no iteration
    changes. *)
Lemma move_to_loop_never_returns (w : World) (fuel : nat) (current target : Z)
    (s : state) :
  current < target ->
  forall s', move_to_loop w fuel current target s <> (Ret tt, s').
Proof.
  intros Hlt. revert s.
  induction fuel as [| n IH]; intros s s'; simpl.
  - destruct (current <? target) eqn:E; [| lia]. discriminate.
  - destruct (current <? target) eqn:E; [| lia].
    unfold bind at 1.
    destruct (move_to_target w target s) as [[[] | e | |] s1]; try discriminate.
    unfold bind at 1.
    destruct (sleep w 500 s1) as [[[] | e | |] s2]; try discriminate.
    unfold bind at 1.
    destruct (get_height_speed w s2) as [[p | e | |] s3]; try discriminate.
    unfold bind at 1.
    destruct (log (HeightSpeedLine p.1 p.2) s3) as [[[] | e | |] s4]; try discriminate.
    apply IH.
Qed.

Lemma position_after_app initial h1 h2 :
  position_after initial (h1 ++ h2) = position_after (position_after initial h1) h2.
Proof. unfold position_after. apply fold_left_app. Qed.

Lemma move_to_loop_obedient (fuel : nat) (h : list event) :
  move_to_loop (obedient_desk 0) fuel 0 100 {| history := h; client := true |}
  = (OutOfFuel,
     {| history := h ++ concat (repeat iteration_100 fuel); client := true |}).
Proof.
  revert h. induction fuel as [| n IH]; intros h.
  - simpl. now rewrite app_nil_r.
  - cbn [move_to_loop]. change (0 <? 100) with true. cbv iota.
    unfold move_to_target, get_height_speed, pack, unpack.
    change (Struct.pack_H 100) with (Some [x64; x00]).
    run_unfold.
    rewrite !position_after_app. simpl.
    change (Struct.u16 x64 x00) with 100.
    change (Struct.unpack_Hh (frame 100 0)) with (Some (100, 0)).
    simpl. rewrite <- !app_assoc. simpl.
    rewrite IH. rewrite <- !app_assoc. reflexivity.
Qed.

(** C1, on the code.  The desk stands at 0 and is asked to go to 100; it
    obeys, so every telemetry read of the loop shows 100, the target.  Each
    iteration does write the target once and then read the telemetry once,
    but the loop does not stop at the first read that shows the target, nor
    at any later one: for every amount of fuel the run is still inside the
    loop, having made one reference-input write per unit of fuel. *)
Theorem move_to_keeps_writing_at_target (fuel : nat) :
  move_to (obedient_desk 0) 100 fuel connected_state
  = (OutOfFuel,
     {| history :=
          [ReadGattChar UUID_HEIGHT;
           WriteGattChar UUID_COMMAND wake_command;
           WriteGattChar UUID_COMMAND stop_command]
          ++ concat (repeat iteration_100 fuel);
        client := true |})
  /\ length (reference_writes
               (history (snd (move_to (obedient_desk 0) 100 fuel connected_state))))
     = fuel.
Proof.
  assert (E : move_to (obedient_desk 0) 100 fuel connected_state
              = (OutOfFuel,
                 {| history :=
                      [ReadGattChar UUID_HEIGHT;
                       WriteGattChar UUID_COMMAND wake_command;
                       WriteGattChar UUID_COMMAND stop_command]
                      ++ concat (repeat iteration_100 fuel);
                    client := true |})).
  { unfold move_to, connected_state, wake_up, stop, try_except, unpack.
    run_unfold.
    change (Struct.unpack_Hh (frame 0 0)) with (Some (0, 0)). simpl.
    apply move_to_loop_obedient. }
  rewrite E. split; [reflexivity |]. simpl.
  clear E. induction fuel as [| n IH]; [reflexivity |].
  simpl. unfold reference_writes in *. simpl. now rewrite IH.
Qed.

Example move_to_two_iterations :
  history (snd (move_to (obedient_desk 0) 100 2 connected_state))
  = [ReadGattChar UUID_HEIGHT;
     WriteGattChar UUID_COMMAND [xfe; x00];
     WriteGattChar UUID_COMMAND [xff; x00];
     WriteGattChar UUID_REFERENCE_INPUT [x64; x00]; Sleep 500;
     ReadGattChar UUID_HEIGHT; Log (HeightSpeedLine 100 0);
     WriteGattChar UUID_REFERENCE_INPUT [x64; x00]; Sleep 500;
     ReadGattChar UUID_HEIGHT; Log (HeightSpeedLine 100 0)].
Proof. reflexivity. Qed.

End MoveFacts.

Module RunCommandFacts.

Import Py Effects Bluetooth Observations Scenarios EffectsFacts.

Local Open Scope run_scope.


Section Adapter.

Variable w : World.
Variable P : event -> Prop.
Hypothesis P_read : forall u, P (ReadGattChar u).
Hypothesis P_command : forall d, P (WriteGattChar UUID_COMMAND d).
Hypothesis P_sleep : forall ms, P (Sleep ms).

Lemma emits_read u : emits P (client_read_gatt_char w u).
Proof.
  apply emits_with_client, emits_bind; [now apply emits_emit |].
  intros _. apply emits_bind; [apply emits_get_history |].
  intros h. apply emits_of_result.
Qed.


Lemma emits_unpack data : emits P (unpack data).
Proof. unfold unpack. destruct (Struct.unpack_Hh data); [apply emits_ret | apply emits_raise]. Qed.

Lemma emits_sleep ms : emits P (sleep w ms).
Proof.
  apply emits_bind; [now apply emits_emit |].
  intros _. apply emits_bind; [apply emits_get_history |].
  intros h. apply emits_of_status.
Qed.



Lemma emits_get_height_speed : emits P (get_height_speed w).
Proof.
  apply emits_bind; [apply emits_read | apply emits_unpack].
Qed.

(** At or above the target the loop is not entered. *)
Lemma move_to_loop_skipped fuel current target :
  target <= current -> move_to_loop w fuel current target = ret tt.
Proof.
  intros H. destruct fuel; simpl; destruct (current <? target) eqn:E; try lia; reflexivity.
Qed.


End Adapter.

Section Loop.

Variable w : World.
Variable P : event -> Prop.
Hypothesis P_read : forall u, P (ReadGattChar u).
Hypothesis P_write : forall u d, P (WriteGattChar u d).
Hypothesis P_sleep : forall ms, P (Sleep ms).
Hypothesis P_progress : forall h sp, P (Log (HeightSpeedLine h sp)).

Lemma emits_move_to_target target : emits P (move_to_target w target).
Proof.
  apply emits_bind.
  - unfold pack. destruct (Struct.pack_H target); [apply emits_ret | apply emits_raise].
  - intros d. apply emits_with_client, emits_bind; [now apply emits_emit |].
    intros _. apply emits_bind; [apply emits_get_history |].
    intros h. apply emits_of_status.
Qed.

Lemma emits_move_to_loop fuel current target :
  emits P (move_to_loop w fuel current target).
Proof.
  induction fuel as [| n IH]; simpl; destruct (current <? target);
    try apply emits_ret; try apply emits_out_of_fuel.
  apply emits_bind; [apply emits_move_to_target |]. intros _.
  apply emits_bind; [now apply emits_sleep |]. intros _.
  apply emits_bind; [now apply emits_get_height_speed |]. intros p.
  apply emits_bind; [now apply emits_log |]. intros _.
  exact IH.
Qed.


End Loop.

(** A configuration that asks for a move makes [run_command] read the
    position, log it, announce the move, run [move_to] on the computed
    target and end with the report. *)
Lemma run_command_move (w : World) (base_height : Z) (config : gmap string value)
    (fuel : nat) (h : list event) (data : list byte) (h0 sp t : Z) (l : line) :
  read_result w (h ++ [ReadGattChar UUID_HEIGHT]) UUID_HEIGHT = inr data ->
  Struct.unpack_Hh data = Some (h0, sp) ->
  computed_target base_height config = Some t ->
  moving_line config = Some l ->
  run_command w base_height config fuel {| history := h; client := true |}
  = bind (move_to w t fuel) (fun _ => final_report w (Some t))
      {| history := h ++ [ReadGattChar UUID_HEIGHT; Log (HeightLine h0); Log l];
         client := true |}.
Proof.
  intros Hread Hframe Ht Hl.
  unfold run_command, computed_target, moving_line in *.
  unfold unpack, client_read_gatt_char, with_client, log.
  unfold bind at 1. unfold get_client at 1. cbv iota beta.
  unfold bind at 1. unfold bind at 1. unfold emit at 1. cbv iota beta.
  unfold bind at 1. unfold get_history at 1. cbv iota beta.
  unfold emit_state. cbn [history client].
  rewrite Hread. unfold of_result, ret at 1. cbv iota beta.
  unfold bind at 1. rewrite Hframe. unfold ret at 1. cbv iota beta.
  cbn [fst].
  unfold bind at 1. unfold emit at 1. cbv iota beta.
  unfold emit_state. cbn [history client].
  destruct (truthy_opt (config !! "watch")); [discriminate |].
  unfold getitem, dict_get.
  destruct (config !! "move_to") as [[k | ?] |] eqn:Em; try discriminate.
  destruct (default (Mapping ∅) (config !! "favourites")) as [? | d] eqn:Ef;
    try discriminate.
  destruct (truthy k) eqn:Ek; [| discriminate].
  cbn [truthy_opt]. rewrite Ek.
  unfold bind at 1. unfold ret at 1. cbv iota beta.
  injection Hl as <-.
  assert (Hget :
    forall s,
      match k with SStr k0 => ret (d !! k0) | _ => ret None end s
      = (Ret match k with SStr name => d !! name | _ => None end, s)).
  { intros s. destruct k; reflexivity. }
  unfold bind at 1. rewrite Hget. cbv iota beta.
  set (fav := match k with SStr name => d !! name | _ => None end) in *.
  destruct (truthy_opt (Scalar <$> fav)) eqn:Efav.
  - destruct (mm_to_raw_value base_height (default SNone fav)) as [e | t'] eqn:Er;
      [discriminate |].
    injection Ht as ->.
    unfold of_result. unfold bind at 1. unfold ret at 1. cbv iota beta.
    unfold bind at 1. unfold emit at 1. cbv iota beta.
    unfold emit_state. cbn [history client].
    rewrite <- !app_assoc. reflexivity.
  - destruct (int k) as [e | n] eqn:Ei; [discriminate |].
    injection Ht as <-.
    unfold try_except, of_result.
    unfold bind at 1. unfold bind at 1. unfold ret at 1. cbv iota beta.
    unfold bind at 1. unfold emit at 1. cbv iota beta.
    unfold emit_state. cbn [history client].
    unfold ret at 1. cbv iota beta.
    rewrite <- !app_assoc. reflexivity.
Qed.








Example move_to_base_height_history :
  history after_move_to_base
  = [ReadGattChar UUID_HEIGHT; Log (HeightLine 1000);
     Log (MovingHeightLine (SStr "620"));
     ReadGattChar UUID_HEIGHT;
     WriteGattChar UUID_COMMAND wake_command;
     WriteGattChar UUID_COMMAND stop_command].
Proof. reflexivity. Qed.

Example move_down_history :
  run_command (obedient_desk 1000) 620 {[ "move_to" := Scalar (SStr "700") ]} 3
    connected_state
  = (Ret tt,
     {| history :=
          [ReadGattChar UUID_HEIGHT; Log (HeightLine 1000);
           Log (MovingHeightLine (SStr "700"));
           ReadGattChar UUID_HEIGHT;
           WriteGattChar UUID_COMMAND wake_command;
           WriteGattChar UUID_COMMAND stop_command;
           ReadGattChar UUID_HEIGHT; Log (FinalHeightLine 1000 800)];
        client := true |}).
Proof. reflexivity. Qed.




End RunCommandFacts.

Module RelayFacts.

Import Py Effects Bluetooth Observations Scenarios EffectsFacts RunCommandFacts.

Local Open Scope run_scope.



Lemma reference_writes_app h1 h2 :
  reference_writes (h1 ++ h2) = reference_writes h1 ++ reference_writes h2.
Proof. unfold reference_writes. apply omap_app. Qed.






Example relay_hyphen_history :
  Controller.run_forwarded_command (obedient_desk 1000) relay_base_config 620
    override_hyphen_100 3 connected_state
  = (Ret tt,
     {| history := [Print "Received command"; ReadGattChar UUID_HEIGHT;
                    Log (HeightLine 1000); Sleep 1000];
        client := true |}).
Proof. reflexivity. Qed.

Example relay_move_to_history :
  Controller.run_forwarded_command (obedient_desk 1000) relay_base_config 620
    override_move_to_100 3 connected_state
  = (Ret tt,
     {| history := [Print "Received command"; ReadGattChar UUID_HEIGHT;
                    Log (HeightLine 1000); Log (MovingHeightLine (SStr "100"));
                    ReadGattChar UUID_HEIGHT;
                    WriteGattChar UUID_COMMAND wake_command;
                    WriteGattChar UUID_COMMAND stop_command;
                    ReadGattChar UUID_HEIGHT;
                    Log (FinalHeightLine 1000 (-5200)); Sleep 1000];
        client := true |}).
Proof. reflexivity. Qed.

Example relay_response_stream :
  response_stream 620
    (history (snd (Controller.run_forwarded_command (obedient_desk 1000)
                     relay_base_config 620 override_move_to_100 3 connected_state)))
  = ["Height:  720mm"; "Moving to height: 100";
     "Final height:  720mm (Target:  100mm)"].
Proof. reflexivity. Qed.

End RelayFacts.

Module ControllerFacts.

Import Py Effects Bluetooth Observations Scenarios EffectsFacts.

Local Open Scope run_scope.


Section Follows.

Variable R : state -> state -> Prop.
Hypothesis R_refl : forall s, R s s.
Hypothesis R_trans : forall s1 s2 s3, R s1 s2 -> R s2 s3 -> R s1 s3.

Lemma follows_ret {A} (a : A) : follows R (ret a).
Proof. intros s. apply R_refl. Qed.

Lemma follows_raise {A} (e : exn) : follows R (@raise A e).
Proof. intros s. apply R_refl. Qed.

Lemma follows_hang {A} : follows R (@hang A).
Proof. intros s. apply R_refl. Qed.

Lemma follows_out_of_fuel {A} : follows R (@out_of_fuel A).
Proof. intros s. apply R_refl. Qed.

Lemma follows_get_history : follows R get_history.
Proof. intros s. apply R_refl. Qed.

Lemma follows_get_client : follows R get_client.
Proof. intros s. apply R_refl. Qed.

Lemma follows_bind {A B} (c : M A) (k : A -> M B) :
  follows R c -> (forall a, follows R (k a)) -> follows R (bind c k).
Proof.
  intros Hc Hk s. unfold bind. specialize (Hc s).
  destruct (c s) as [[a | e | |] s1]; simpl in *; try exact Hc.
  eapply R_trans; [exact Hc | apply Hk].
Qed.

Lemma follows_try_except {A} (c : M A) (handles : exn -> bool) (h : exn -> M A) :
  follows R c -> (forall e, follows R (h e)) -> follows R (try_except c handles h).
Proof.
  intros Hc Hh s. unfold try_except. specialize (Hc s).
  destruct (c s) as [[a | e | |] s1]; simpl in *; try exact Hc.
  destruct (handles e); simpl; [| exact Hc].
  eapply R_trans; [exact Hc | apply Hh].
Qed.

Lemma follows_of_result {A} (r : exn + A) : follows R (of_result r).
Proof. destruct r; [apply follows_raise | apply follows_ret]. Qed.

Lemma follows_of_status (r : option exn) : follows R (of_status r).
Proof. destruct r; [apply follows_raise | apply follows_ret]. Qed.

Lemma follows_getitem d k : follows R (getitem d k).
Proof. unfold getitem. destruct (d !! k); [apply follows_ret | apply follows_raise]. Qed.

Lemma follows_with_client {A} (c : M A) : follows R c -> follows R (with_client c).
Proof.
  intros H. unfold with_client. apply follows_bind; [apply follows_get_client |].
  intros []; [exact H | apply follows_raise].
Qed.

End Follows.

Lemma cleanup_calls_app h1 h2 :
  cleanup_calls (h1 ++ h2) = cleanup_calls h1 ++ cleanup_calls h2.
Proof. unfold cleanup_calls. apply List.filter_app. Qed.

Lemma try_block_step_refl s : try_block_step s s.
Proof.
  exists []. rewrite app_nil_r. repeat split; try reflexivity.
  - now left.
  - intros [H | H]; [exact H | discriminate].
  - discriminate.
Qed.

Lemma try_block_step_trans s1 s2 s3 :
  try_block_step s1 s2 -> try_block_step s2 s3 -> try_block_step s1 s3.
Proof.
  intros (e1 & H1 & C1 & K1 & N1) (e2 & H2 & C2 & K2 & N2).
  exists (e1 ++ e2). rewrite H2, H1, app_assoc. split; [reflexivity |].
  split; [now rewrite cleanup_calls_app, C1, C2 |].
  split.
  - rewrite existsb_app, orb_true_iff, K2, K1. tauto.
  - rewrite existsb_app, orb_true_iff. intros [H | H]; [| now apply N2].
    apply K2. left. now apply N1.
Qed.

Abbreviation step_of := (follows try_block_step).

Lemma step_emit (e : event) : plain e -> step_of (emit e).
Proof.
  intros (Hs & Hd & Hn & Hc) s. exists [e]. simpl.
  split; [reflexivity |]. unfold cleanup_calls. simpl. rewrite Hs, Hd, Hn, Hc. simpl.
  split; [reflexivity |]. split; [| discriminate].
  split; [now left |]. intros [H | H]; [exact H | discriminate].
Qed.

Lemma step_bind {A B} (c : M A) (k : A -> M B) :
  step_of c -> (forall a, step_of (k a)) -> step_of (bind c k).
Proof. apply follows_bind. exact try_block_step_trans. Qed.

(** [self.client = BleakClient(...)]. *)
Lemma step_new_client mac adapter :
  step_of (bind (emit (NewClient mac adapter)) (fun _ => set_client true)).
Proof.
  intros s. exists [NewClient mac adapter]. simpl.
  split; [reflexivity |]. split; [reflexivity |].
  split; [split; [now right | reflexivity] | reflexivity].
Qed.

(** [self.client.connect(...)]: attempted only on a client object. *)
Lemma step_client_connect (w : World) (timeout : value) :
  step_of (client_connect w timeout).
Proof.
  intros [h c]. unfold client_connect, with_client, bind, get_client. simpl.
  destruct c; [| apply try_block_step_refl].
  unfold emit, get_history, emit_state. simpl.
  exists [Connect timeout].
  destruct (connect_result w _); simpl;
    (split; [reflexivity |]); (split; [reflexivity |]);
    (split; [split; [now left | reflexivity] | reflexivity]).
Qed.

Ltac step :=
  first
    [ apply step_new_client
    | apply step_client_connect
    | apply step_bind; [| intros ? ]
    | apply (follows_ret _ try_block_step_refl)
    | apply (follows_raise _ try_block_step_refl)
    | apply (follows_hang _ try_block_step_refl)
    | apply (follows_out_of_fuel _ try_block_step_refl)
    | apply (follows_get_history _ try_block_step_refl)
    | apply (follows_get_client _ try_block_step_refl)
    | apply (follows_of_result _ try_block_step_refl)
    | apply (follows_of_status _ try_block_step_refl)
    | apply (follows_getitem _ try_block_step_refl)
    | apply (follows_with_client _ try_block_step_refl try_block_step_trans)
    | apply (follows_try_except _ try_block_step_trans); [| intros ? ]
    | apply step_emit; repeat split; reflexivity
    | match goal with
      | |- follows _ (if ?b then _ else _) => destruct b
      | |- follows _ (match ?x with Some _ => _ | None => _ end) => destruct x
      end ].

Section Run.

Variable w : World.
Variable user_config : gmap string value.

Lemma step_print_all messages : step_of (Controller.print_all messages).
Proof.
  induction messages as [| m ms IH]; simpl; [step |].
  unfold print. step; [step | exact IH].
Qed.

Lemma step_forward_command : step_of (Controller.forward_command w user_config).
Proof.
  unfold Controller.forward_command. repeat step. apply step_print_all.
Qed.

Lemma step_scan : step_of (scan w user_config).
Proof.
  unfold scan, print. repeat step.
  match goal with |- step_of (_ ?ds) => induction ds as [| d ds IH] end;
    [step |].
  step; [step | exact IH].
Qed.

Lemma step_print_characteristics cs : step_of (print_characteristics cs).
Proof.
  induction cs as [| [uuid description] cs IH]; simpl; [step |].
  unfold print. step; [step | exact IH].
Qed.

Lemma step_print_services ss : step_of (print_services ss).
Proof.
  induction ss as [| [uuid cs] ss IH]; simpl; [step |].
  unfold print. step; [step |]. step; [apply step_print_characteristics | exact IH].
Qed.

Lemma step_connect : step_of (connect w user_config).
Proof.
  unfold connect, client_get_services, print.
  repeat step; apply step_print_services.
Qed.

Lemma step_sleep ms : step_of (sleep w ms).
Proof. unfold sleep. repeat step. Qed.

Lemma step_sleep_forever fuel : step_of (Controller.sleep_forever w fuel).
Proof.
  induction fuel as [| n IH]; simpl; [step |].
  step; [apply step_sleep | exact IH].
Qed.

Lemma step_wait_forever {A} : step_of (@wait_forever w A).
Proof. unfold wait_forever. repeat step. Qed.

Lemma step_run_server fuel : step_of (Controller.run_server w user_config fuel).
Proof.
  unfold Controller.run_server, print. repeat step. apply step_sleep_forever.
Qed.

Lemma step_run_tcp_server : step_of (Controller.run_tcp_server w user_config).
Proof.
  unfold Controller.run_tcp_server, wait_forever, print. repeat step.
Qed.

Lemma step_run_body fuel : step_of (Controller.run_body w user_config fuel).
Proof.
  unfold Controller.run_body. repeat step.
  - apply step_print_all.
  - match goal with |- step_of (_ ?ds) => induction ds as [| d ds IH] end;
      [step |].
    step; [unfold print; step | exact IH].
  - apply step_print_services.
  - apply step_sleep_forever.
Qed.

(** The [try] block of [run] with its two handlers. *)
Lemma step_try_block fuel :
  step_of
    (try_except (Controller.run_body w user_config fuel)
       (fun e => is_KeyboardInterrupt e || is_Exception e)
       (fun e =>
          if is_KeyboardInterrupt e then raise e
          else
            emit (PrintExn "Something unexpected went wrong: {}" e) ;;
            emit (PrintExn "traceback" e))).
Proof.
  apply (follows_try_except _ try_block_step_trans);
    [apply step_run_body | intros e; repeat step].
Qed.

(** The [finally] block: nothing without a client object; with one, the
    stop write, then the query of [is_connected] unless the stop write raised
    something that [stop()] does not swallow. *)
Lemma cleanup_without_client s :
  client s = false -> Controller.cleanup w s = (Ret tt, s).
Proof.
  intros H. unfold Controller.cleanup, bind, get_client. now rewrite H.
Qed.

Lemma cleanup_with_client s :
  client s = true ->
  exists tail,
    history (snd (Controller.cleanup w s))
    = history s ++ Print (CR ++ "Disconnecting" ++ CR)
                   :: WriteGattChar UUID_COMMAND stop_command :: tail
    /\ client (snd (Controller.cleanup w s)) = true
    /\ existsb is_new_client tail = false
    /\ ended (fst (Controller.cleanup w s)) = true
    /\ (cleanup_calls tail = [IsConnected]
        \/ (cleanup_calls tail = []
            /\ exists e, fst (Controller.cleanup w s) = Raise e
                         /\ is_BleakError e = false)).
Proof.
  intros Hc. destruct s as [h c]. simpl in Hc. subst c.
  unfold Controller.cleanup, stop, disconnect, try_except.
  run_unfold.
  destruct (write_result w _ UUID_COMMAND stop_command) as [e |] eqn:Ew; simpl.
  - destruct (is_BleakError e) eqn:Eb; simpl.
    + destruct (is_connected_result w _) eqn:Ei; simpl.
      * destruct (disconnect_result w _) as [e' |]; simpl;
          eexists; rewrite <- !app_assoc; simpl; repeat split; try reflexivity;
          now left.
      * eexists; rewrite <- !app_assoc; simpl; repeat split; try reflexivity;
          now left.
    + exists []. rewrite <- !app_assoc. simpl. repeat split; try reflexivity.
      right. split; [reflexivity |]. now exists e.
  - destruct (is_connected_result w _) eqn:Ei; simpl.
    + destruct (disconnect_result w _) as [e' |]; simpl;
        eexists; rewrite <- !app_assoc; simpl; repeat split; try reflexivity;
        now left.
    + eexists; rewrite <- !app_assoc; simpl; repeat split; try reflexivity;
        now left.
Qed.

End Run.

(** C4, as the code has it.  When [run] ends, by returning or by an
    exception, the [finally] block has called [stop()] and then
    [disconnect()] exactly once if the adapter holds a client object, and not
    at all if it holds none.  The adapter holds one exactly when [connect()]
    created it, which comes before the connection attempt: it holds one
    whenever a connection was attempted, established or not.
    [disconnect()] is left out in one case only: the stop write raised an
    exception other than the [BleakError] that [stop()] swallows, and that
    exception is how [run] ends. *)
Theorem cleanup_once_iff_client_object (w : World) (user_config : gmap string value)
    (fuel : nat)
    (Hended : ended (fst (Controller.run w user_config fuel Controller.initial_state))
              = true) :
  (client (snd (Controller.run w user_config fuel Controller.initial_state)) = true
   <-> existsb is_new_client
         (history (snd (Controller.run w user_config fuel Controller.initial_state)))
       = true)
  /\ (existsb is_connect
        (history (snd (Controller.run w user_config fuel Controller.initial_state)))
      = true ->
      client (snd (Controller.run w user_config fuel Controller.initial_state)) = true)
  /\ (client (snd (Controller.run w user_config fuel Controller.initial_state)) = false ->
      cleanup_calls
        (history (snd (Controller.run w user_config fuel Controller.initial_state)))
      = [])
  /\ (client (snd (Controller.run w user_config fuel Controller.initial_state)) = true ->
      cleanup_calls
        (history (snd (Controller.run w user_config fuel Controller.initial_state)))
      = [WriteGattChar UUID_COMMAND stop_command; IsConnected]
      \/ (cleanup_calls
            (history (snd (Controller.run w user_config fuel Controller.initial_state)))
          = [WriteGattChar UUID_COMMAND stop_command]
          /\ exists e,
               fst (Controller.run w user_config fuel Controller.initial_state) = Raise e
               /\ is_BleakError e = false)).
Proof.
  pose proof (step_try_block w user_config fuel Controller.initial_state)
    as (evs & Hh & Hc & Hk & Hcon).
  unfold Controller.run, try_finally in *.
  destruct (try_except _ _ _ Controller.initial_state) as [o1 s1].
  simpl in Hh, Hk, Hcon.
  assert (Hnew : client s1 = true <-> existsb is_new_client evs = true).
  { rewrite Hk. split; [intros [H | H]; [discriminate | exact H] | now right]. }
  clear Hk.
  destruct (client s1) eqn:Ec.
  - destruct (cleanup_with_client w s1 Ec) as (tail & Et & Ecl & En & Een & Hcalls).
    assert (Hstate :
      forall (k : unit -> M unit),
        (forall u s, snd (k u s) = s) ->
        snd (bind (Controller.cleanup w) k s1) = snd (Controller.cleanup w s1)).
    { intros k Hk. unfold bind.
      destruct (Controller.cleanup w s1) as [[[] | e | |] s2]; simpl; try reflexivity.
      apply Hk. }
    assert (Hout :
      forall (k : unit -> M unit) e,
        fst (Controller.cleanup w s1) = Raise e ->
        fst (bind (Controller.cleanup w) k s1) = Raise e).
    { intros k e He. unfold bind.
      destruct (Controller.cleanup w s1) as [[[] | e' | |] s2]; simpl in *;
        congruence. }
    assert (Hgoal :
      forall (k : unit -> M unit),
        (forall u s, snd (k u s) = s) ->
        (client (snd (bind (Controller.cleanup w) k s1)) = true
         <-> existsb is_new_client (history (snd (bind (Controller.cleanup w) k s1)))
             = true)
        /\ (existsb is_connect (history (snd (bind (Controller.cleanup w) k s1)))
            = true ->
            client (snd (bind (Controller.cleanup w) k s1)) = true)
        /\ (client (snd (bind (Controller.cleanup w) k s1)) = false ->
            cleanup_calls (history (snd (bind (Controller.cleanup w) k s1))) = [])
        /\ (client (snd (bind (Controller.cleanup w) k s1)) = true ->
            cleanup_calls (history (snd (bind (Controller.cleanup w) k s1)))
            = [WriteGattChar UUID_COMMAND stop_command; IsConnected]
            \/ (cleanup_calls (history (snd (bind (Controller.cleanup w) k s1)))
                = [WriteGattChar UUID_COMMAND stop_command]
                /\ exists e,
                     fst (bind (Controller.cleanup w) k s1) = Raise e
                     /\ is_BleakError e = false))).
    { intros k Hk. rewrite (Hstate k Hk), Et, Ecl, Hh. simpl.
      change (Print (CR ++ "Disconnecting" ++ CR)
              :: WriteGattChar UUID_COMMAND stop_command :: tail)
        with ([Print (CR ++ "Disconnecting" ++ CR);
               WriteGattChar UUID_COMMAND stop_command] ++ tail).
      rewrite !cleanup_calls_app, Hc, !existsb_app, En.
      change (cleanup_calls [Print (CR ++ "Disconnecting" ++ CR);
                             WriteGattChar UUID_COMMAND stop_command])
        with [WriteGattChar UUID_COMMAND stop_command].
      simpl. rewrite !orb_false_r.
      split; [split; [intros _; now apply Hnew | reflexivity] |].
      split; [reflexivity |].
      split; [discriminate |]. intros _.
      destruct Hcalls as [-> | (-> & e & He & Hb)]; [now left |].
      right. split; [reflexivity |]. exists e. split; [| exact Hb].
      now apply Hout. }
    destruct o1 as [[] | e | |]; simpl in Hended; try discriminate;
      apply Hgoal; reflexivity.
  - assert (Hnone : existsb is_new_client evs = false).
    { destruct (existsb is_new_client evs); [| reflexivity].
      destruct Hnew as [_ Hn]. now specialize (Hn eq_refl). }
    destruct o1 as [[] | e | |]; simpl in Hended; try discriminate;
      unfold bind; rewrite (cleanup_without_client w s1 Ec); simpl;
      rewrite Ec, Hh; simpl; rewrite Hnone, Hc;
      (split; [split; discriminate |]); (split; [exact Hcon |]);
      (split; [reflexivity | discriminate]).
Qed.

(** A local run with no action flag, on a desk that works. *)
Lemma cleanup_once_iff_client_object_witness :
  (client (snd (Controller.run (obedient_desk 1000) direct_config 3
                  Controller.initial_state)) = true
   <-> existsb is_new_client
         (history (snd (Controller.run (obedient_desk 1000) direct_config 3
                          Controller.initial_state)))
       = true)
  /\ (existsb is_connect
        (history (snd (Controller.run (obedient_desk 1000) direct_config 3
                         Controller.initial_state)))
      = true ->
      client (snd (Controller.run (obedient_desk 1000) direct_config 3
                     Controller.initial_state)) = true)
  /\ (client (snd (Controller.run (obedient_desk 1000) direct_config 3
                     Controller.initial_state)) = false ->
      cleanup_calls
        (history (snd (Controller.run (obedient_desk 1000) direct_config 3
                         Controller.initial_state)))
      = [])
  /\ (client (snd (Controller.run (obedient_desk 1000) direct_config 3
                     Controller.initial_state)) = true ->
      cleanup_calls
        (history (snd (Controller.run (obedient_desk 1000) direct_config 3
                         Controller.initial_state)))
      = [WriteGattChar UUID_COMMAND stop_command; IsConnected]
      \/ (cleanup_calls
            (history (snd (Controller.run (obedient_desk 1000) direct_config 3
                             Controller.initial_state)))
          = [WriteGattChar UUID_COMMAND stop_command]
          /\ exists e,
               fst (Controller.run (obedient_desk 1000) direct_config 3
                      Controller.initial_state) = Raise e
               /\ is_BleakError e = false)).
Proof.
  apply (cleanup_once_iff_client_object (obedient_desk 1000) direct_config 3).
  reflexivity.
Defined.

(** C4, as stated, fails.  The desk is out of reach: the one connection
    attempt raises [BleakError], so no connection is ever established, and
    [run] ends with [SystemExit(1)].  The client object exists by then, and
    the [finally] block calls [stop()] and [disconnect()] all the same. *)
Lemma cleanup_after_failed_connect :
  connect_result unreachable_desk
    [Print ("Connecting" ++ CR);
     NewClient (Scalar (SStr "AA:BB:CC:DD:EE:FF")) (Scalar (SStr "hci0"));
     Connect (Scalar (SInt 10))]
  = Some BleakError
  /\ Controller.run unreachable_desk direct_config 3 Controller.initial_state
     = (Raise (SystemExit 1),
        {| history :=
             [Print ("Connecting" ++ CR);
              NewClient (Scalar (SStr "AA:BB:CC:DD:EE:FF")) (Scalar (SStr "hci0"));
              Connect (Scalar (SInt 10));
              Print "Connecting failed";
              PrintExn "{}" BleakError;
              Print (CR ++ "Disconnecting" ++ CR);
              WriteGattChar UUID_COMMAND stop_command;
              IsConnected;
              Print "Disconnected!"];
           client := true |})
  /\ cleanup_calls
       (history (snd (Controller.run unreachable_desk direct_config 3
                        Controller.initial_state)))
     = [WriteGattChar UUID_COMMAND stop_command; IsConnected].
Proof. repeat split; reflexivity. Qed.

Example run_scan_has_no_cleanup :
  Controller.run (obedient_desk 1000)
    (<["scan_adapter" := Scalar (SBool true)]> direct_config) 3
    Controller.initial_state
  = (Ret tt,
     {| history :=
          [Print ("Scanning" ++ CR); Discover;
           PrintFormat "Found {} devices using {}"
             [Scalar (SInt 0); Scalar (SStr "hci0")]];
        client := false |}).
Proof. reflexivity. Qed.

Example run_direct_history :
  Controller.run (obedient_desk 1000) direct_config 3 Controller.initial_state
  = (Ret tt,
     {| history :=
          [Print ("Connecting" ++ CR);
           NewClient (Scalar (SStr "AA:BB:CC:DD:EE:FF")) (Scalar (SStr "hci0"));
           Connect (Scalar (SInt 10));
           PrintFormat "Connected {}" [Scalar (SStr "AA:BB:CC:DD:EE:FF")];
           GetServices; Print "Received the services:";
           PrintExn "Something unexpected went wrong: {}" TypeError;
           PrintExn "traceback" TypeError;
           Print (CR ++ "Disconnecting" ++ CR);
           WriteGattChar UUID_COMMAND stop_command;
           IsConnected; Disconnect; Print "Disconnected!"];
        client := true |}).
Proof. reflexivity. Qed.

End ControllerFacts.

Module ConfigFacts.

Import Py Effects Bluetooth Observations Scenarios.

(** What the arguments give wins over the file and the defaults, and it is
    stored as given. *)
Lemma init_keeps_arguments (default_path example_path : string)
    (fs : gmap string Config.document) (args config : gmap string value)
    (key : string) (v : value) (s s' : state) :
  args !! key = Some v ->
  Config.__init__ default_path example_path fs args s = (Ret config, s') ->
  config !! key = Some v.
Proof.
  intros Hk H. unfold Config.__init__ in H.
  apply EffectsFacts.bind_returns in H as (fs' & s1 & _ & H).
  apply EffectsFacts.bind_returns in H as (p & s2 & _ & H).
  apply EffectsFacts.bind_returns in H as (path & s3 & _ & H).
  apply EffectsFacts.bind_returns in H as (c & s4 & _ & H).
  unfold ret in H. injection H as <- _.
  now apply lookup_union_Some_l.
Qed.

(** C2, on the code.  The configuration file gives a sit height offset of
    -1, outside [0, 650].  [UserConfig(args)] returns a configuration that
    holds it; [_validate_config], if it were called on that configuration,
    would print the diagnostic and exit with status 1; but nothing calls it.
    The program goes on to create the client and to connect, and ends with
    status 0. *)
Theorem invalid_offset_reaches_the_desk :
  Config.__init__ default_path example_path (files offset_file)
    (Controller.get_parsed_args plain_namespace) Controller.initial_state
  = (Ret (built_config offset_file), Controller.initial_state)
  /\ built_config offset_file !! "sit_height_offset" = Some (Scalar (SInt (-1)))
  /\ built_config offset_file !! "movement_range" = Some (Scalar (SInt 650))
  /\ Config._validate_config "linux" (built_config offset_file) Controller.initial_state
     = (Raise (SystemExit 1),
        {| history := [PrintFormat "Sit height offset must be within [0, {}]"
                         [Scalar (SInt 650)]];
           client := false |})
  /\ Controller.__init__ (obedient_desk 1000) default_path example_path
       (files offset_file) plain_namespace 3 Controller.initial_state
     = (Ret tt,
        {| history :=
             [Print ("Connecting" ++ CR);
              NewClient (Scalar (SStr "AA:BB:CC:DD:EE:FF")) (Scalar (SStr "hci0"));
              Connect (Scalar (SInt 10));
              PrintFormat "Connected {}" [Scalar (SStr "AA:BB:CC:DD:EE:FF")];
              GetServices; Print "Received the services:";
              PrintExn "Something unexpected went wrong: {}" TypeError;
              PrintExn "traceback" TypeError;
              Print (CR ++ "Disconnecting" ++ CR);
              WriteGattChar UUID_COMMAND stop_command;
              IsConnected; Disconnect; Print "Disconnected!"];
           client := true |})
  /\ Controller.exit_status
       (fst (Controller.__init__ (obedient_desk 1000) default_path example_path
               (files offset_file) plain_namespace 3 Controller.initial_state))
     = Some 0.
Proof. repeat split; vm_compute; reflexivity. Qed.

(** C8, on the code.  The file gives the mac address in lower case.
    [UserConfig(args)] returns a configuration that holds it unchanged;
    [_validate_config] would store its upper-case form, but nothing calls
    it, and the client is created for the address in lower case. *)
Theorem mac_address_stays_as_given :
  Config.__init__ default_path example_path (files lowercase_file)
    (Controller.get_parsed_args plain_namespace) Controller.initial_state
  = (Ret (built_config lowercase_file), Controller.initial_state)
  /\ built_config lowercase_file !! "mac_address"
     = Some (Scalar (SStr "aa:bb:cc:dd:ee:ff"))
  /\ Config.upper "aa:bb:cc:dd:ee:ff" = "AA:BB:CC:DD:EE:FF"
  /\ fst (Config._validate_config "linux" (built_config lowercase_file)
            Controller.initial_state)
     = Ret (<["mac_address" := Scalar (SStr "AA:BB:CC:DD:EE:FF")]>
              (built_config lowercase_file))
  /\ history
       (snd (Controller.__init__ (obedient_desk 1000) default_path example_path
               (files lowercase_file) plain_namespace 3 Controller.initial_state))
     !! 1%nat
     = Some (NewClient (Scalar (SStr "aa:bb:cc:dd:ee:ff")) (Scalar (SStr "hci0"))).
Proof. repeat split; vm_compute; reflexivity. Qed.

End ConfigFacts.

Module EncodingFacts.

Import Py Effects Bluetooth Observations Scenarios EffectsFacts.

Lemma Z_of_byte_of_Z z : Struct.Z_of_byte (Struct.byte_of_Z z) = Z.land z 255.
Proof.
  unfold Struct.Z_of_byte, Struct.byte_of_Z.
  assert (H : 0 <= Z.land z 255 < 256).
  { change 255 with (Z.ones 8). rewrite Z.land_ones by lia.
    apply Z.mod_pos_bound. lia. }
  destruct (Byte.of_N (Z.to_N (Z.land z 255))) as [b |] eqn:E.
  - apply Byte.to_of_N in E. rewrite E. lia.
  - apply Byte.of_N_None_iff in E. lia.
Qed.

Lemma Z_of_byte_inj b1 b2 : Struct.Z_of_byte b1 = Struct.Z_of_byte b2 -> b1 = b2.
Proof.
  unfold Struct.Z_of_byte. intros H.
  assert (E : Byte.to_N b1 = Byte.to_N b2) by lia.
  pose proof (Byte.of_to_N b1) as H1. pose proof (Byte.of_to_N b2) as H2.
  rewrite E in H1. congruence.
Qed.

Lemma byte_of_Z_of_byte b : Struct.byte_of_Z (Struct.Z_of_byte b) = b.
Proof.
  apply Z_of_byte_inj. rewrite Z_of_byte_of_Z.
  pose proof (StructFacts.Z_of_byte_range b) as H.
  change 255 with (Z.ones 8). rewrite Z.land_ones by lia.
  apply Z.mod_small. lia.
Qed.

Lemma bits_above_16 n i : 0 <= n <= 65535 -> 16 <= i -> Z.testbit n i = false.
Proof.
  intros Hn Hi. destruct (Z.eq_dec n 0) as [-> | Hz]; [apply Z.bits_0 |].
  apply Z.bits_above_log2; [lia |].
  assert (Z.log2 n < 16) by (apply Z.log2_lt_pow2; lia). lia.
Qed.

Lemma bits_above_8 n i : 0 <= n < 256 -> 8 <= i -> Z.testbit n i = false.
Proof.
  intros Hn Hi. destruct (Z.eq_dec n 0) as [-> | Hz]; [apply Z.bits_0 |].
  apply Z.bits_above_log2; [lia |].
  assert (Z.log2 n < 8) by (apply Z.log2_lt_pow2; lia). lia.
Qed.

Lemma u16_of_pack n :
  0 <= n <= 65535 ->
  Struct.u16 (Struct.byte_of_Z n) (Struct.byte_of_Z (Z.shiftr n 8)) = n.
Proof.
  intros H. unfold Struct.u16. rewrite !Z_of_byte_of_Z.
  apply Z.bits_inj'. intros i Hi.
  rewrite Z.lor_spec, Z.land_spec.
  change 255 with (Z.ones 8).
  destruct (Z_lt_dec i 8) as [Hlt | Hge].
  - rewrite Z.shiftl_spec_low by lia. rewrite Z.ones_spec_low by lia.
    now rewrite andb_true_r, orb_false_r.
  - rewrite Z.shiftl_spec by lia. rewrite Z.land_spec, Z.shiftr_spec by lia.
    rewrite (Z.ones_spec_high 8 i) by lia. rewrite andb_false_r. simpl.
    replace (i - 8 + 8) with i by lia.
    destruct (Z_lt_dec i 16) as [H16 | H16].
    + rewrite Z.ones_spec_low by lia. now rewrite andb_true_r.
    + rewrite Z.ones_spec_high by lia. rewrite andb_false_r.
      symmetry. apply bits_above_16; lia.
Qed.

Lemma low_byte_of_u16 lo hi : Struct.byte_of_Z (Struct.u16 lo hi) = lo.
Proof.
  apply Z_of_byte_inj. rewrite Z_of_byte_of_Z. unfold Struct.u16.
  pose proof (StructFacts.Z_of_byte_range lo) as Hl.
  apply Z.bits_inj'. intros i Hi.
  rewrite Z.land_spec, Z.lor_spec. change 255 with (Z.ones 8).
  destruct (Z_lt_dec i 8) as [Hlt | Hge].
  - rewrite Z.shiftl_spec_low by lia. rewrite Z.ones_spec_low by lia.
    now rewrite andb_true_r, orb_false_r.
  - rewrite Z.ones_spec_high by lia. rewrite andb_false_r.
    symmetry. apply bits_above_8; lia.
Qed.

Lemma high_byte_of_u16 lo hi :
  Struct.byte_of_Z (Z.shiftr (Struct.u16 lo hi) 8) = hi.
Proof.
  apply Z_of_byte_inj. rewrite Z_of_byte_of_Z. unfold Struct.u16.
  pose proof (StructFacts.Z_of_byte_range lo) as Hl.
  pose proof (StructFacts.Z_of_byte_range hi) as Hh.
  apply Z.bits_inj'. intros i Hi.
  rewrite Z.land_spec, Z.shiftr_spec, Z.lor_spec by lia.
  rewrite Z.shiftl_spec by lia. replace (i + 8 - 8) with i by lia.
  rewrite (bits_above_8 (Struct.Z_of_byte lo)) by lia. simpl.
  change 255 with (Z.ones 8).
  destruct (Z_lt_dec i 8) as [Hlt | Hge].
  - rewrite Z.ones_spec_low by lia. now rewrite andb_true_r.
  - rewrite Z.ones_spec_high by lia. rewrite andb_false_r.
    symmetry. apply bits_above_8; lia.
Qed.

Lemma s16_range lo hi : -32768 <= Struct.s16 lo hi <= 32767.
Proof.
  unfold Struct.s16. pose proof (StructFacts.u16_range lo hi) as H.
  destruct (Struct.u16 lo hi <? 32768) eqn:E; lia.
Qed.

(** X1.  The target format and the position format agree.  A target in
    [0, 65535] is packed into two bytes, and a telemetry frame that starts
    with these two bytes unpacks to that very position; the other way
    round, the position of any frame packs into the first two bytes of the
    frame. *)
Theorem target_and_position_round_trip (n : Z) (b0 b1 b2 b3 : byte)
    (Hrange : 0 <= n <= 65535) :
  (exists lo hi,
      Struct.pack_H n = Some [lo; hi]
      /\ Struct.unpack_Hh [lo; hi; b2; b3] = Some (n, Struct.s16 b2 b3))
  /\ (exists h sp,
        Struct.unpack_Hh [b0; b1; b2; b3] = Some (h, sp)
        /\ Struct.pack_H h = Some [b0; b1]).
Proof.
  split.
  - exists (Struct.byte_of_Z n), (Struct.byte_of_Z (Z.shiftr n 8)).
    unfold Struct.pack_H, Struct.unpack_Hh.
    destruct (0 <=? n) eqn:E1; [| lia]. destruct (n <=? 65535) eqn:E2; [| lia].
    simpl. split; [reflexivity |]. now rewrite u16_of_pack.
  - exists (Struct.u16 b0 b1), (Struct.s16 b2 b3). split; [reflexivity |].
    unfold Struct.pack_H. pose proof (StructFacts.u16_range b0 b1) as H.
    destruct (0 <=? Struct.u16 b0 b1) eqn:E1; [| lia].
    destruct (Struct.u16 b0 b1 <=? 65535) eqn:E2; [| lia]. simpl.
    now rewrite low_byte_of_u16, high_byte_of_u16.
Qed.

(** The target 4660 and the frame 34 12 ff ff. *)
Lemma target_and_position_round_trip_witness :
  (exists lo hi,
      Struct.pack_H 4660 = Some [lo; hi]
      /\ Struct.unpack_Hh [lo; hi; xff; xff] = Some (4660, Struct.s16 xff xff))
  /\ (exists h sp,
        Struct.unpack_Hh [x34; x12; xff; xff] = Some (h, sp)
        /\ Struct.pack_H h = Some [x34; x12]).
Proof.
  apply (target_and_position_round_trip 4660 x34 x12 xff xff). lia.
Defined.

(** X2.  What [get_height_speed] returns is a position in [0, 65535] and a
    speed in [-32768, 32767], and it has read the height characteristic
    once. *)
Theorem telemetry_sample_bounds (w : World) (s s' : state) (h sp : Z)
    (Hsample : get_height_speed w s = (Ret (h, sp), s')) :
  0 <= h <= 65535
  /\ -32768 <= sp <= 32767
  /\ history s' = history s ++ [ReadGattChar UUID_HEIGHT].
Proof.
  unfold get_height_speed in Hsample.
  apply bind_returns in Hsample as (data & s1 & Hr & Hu).
  unfold unpack in Hu.
  destruct data as [| b0 [| b1 [| b2 [| b3 [| ? ?]]]]]; simpl in Hu;
    try discriminate.
  unfold ret in Hu. injection Hu as <- <- <-.
  split; [apply StructFacts.u16_range |]. split; [apply s16_range |].
  unfold client_read_gatt_char, with_client in Hr.
  apply bind_returns in Hr as (b & s2 & Hc & Hr).
  unfold get_client in Hc. injection Hc as <- <-.
  destruct (client s); [| discriminate].
  apply bind_returns in Hr as ([] & s3 & He & Hr).
  unfold emit in He. injection He as <-.
  apply bind_returns in Hr as (hh & s4 & Hh & Hr).
  unfold get_history in Hh. injection Hh as <- <-.
  unfold of_result in Hr.
  match type of Hr with
  | context [read_result ?a ?b ?c] => destruct (read_result a b c)
  end; [discriminate |].
  unfold ret in Hr. injection Hr as _ <-. reflexivity.
Qed.

(** A desk at 1000 ticks. *)
Lemma telemetry_sample_bounds_witness :
  0 <= 1000 <= 65535
  /\ -32768 <= 0 <= 32767
  /\ history (emit_state (ReadGattChar UUID_HEIGHT) connected_state)
     = history connected_state ++ [ReadGattChar UUID_HEIGHT].
Proof.
  apply (telemetry_sample_bounds (obedient_desk 1000) connected_state
           (emit_state (ReadGattChar UUID_HEIGHT) connected_state) 1000 0).
  reflexivity.
Defined.

(** X3.  A telemetry answer that is not four bytes long makes
    [get_height_speed] raise [struct.error], after the one read. *)
Theorem malformed_frame_is_an_error (w : World) (s : state) (data : list byte)
    (Hclient : client s = true)
    (Hread : read_result w (history s ++ [ReadGattChar UUID_HEIGHT]) UUID_HEIGHT
             = inr data)
    (Hlength : length data <> 4%nat) :
  get_height_speed w s
  = (Raise StructError, emit_state (ReadGattChar UUID_HEIGHT) s).
Proof.
  destruct s as [h c]. simpl in *. subst c.
  unfold get_height_speed, unpack. run_unfold. rewrite Hread. simpl.
  destruct data as [| b0 [| b1 [| b2 [| b3 [| ? ?]]]]]; simpl in *;
    try reflexivity.
  congruence.
Qed.

(** A telemetry answer of two bytes. *)
Lemma malformed_frame_is_an_error_witness :
  get_height_speed short_frame_desk connected_state
  = (Raise StructError, emit_state (ReadGattChar UUID_HEIGHT) connected_state).
Proof.
  apply (malformed_frame_is_an_error short_frame_desk connected_state [x10; x27]);
    [reflexivity | reflexivity | discriminate].
Defined.


(** X5.  The heights [move_to_target] can encode: the raw target of a
    height has a two-byte encoding exactly when the height lies between
    the base height and 6553 mm above it. *)
Theorem encodable_heights (base_height mm : Z) :
  (exists data, Struct.pack_H (UnitConverter.mm_to_raw base_height mm) = Some data)
  <-> base_height <= mm <= base_height + 6553.
Proof.
  unfold UnitConverter.mm_to_raw. split.
  - intros [data H]. apply StructFacts.pack_H_Some in H. lia.
  - intros H. unfold Struct.pack_H.
    destruct (0 <=? (mm - base_height) * 10) eqn:E1; [| lia].
    destruct ((mm - base_height) * 10 <=? 65535) eqn:E2; [| lia].
    simpl. eauto.
Qed.

End EncodingFacts.

Module AdapterFacts.

Import Py Effects Bluetooth Observations Scenarios EffectsFacts.

Local Open Scope run_scope.

(** X6.  [stop()] and [unsubscribe()] make one attempt each and swallow the
    one error their comments name: [stop()] returns when the write of the
    stop code returns or raises [BleakError], [unsubscribe()] returns when
    [stop_notify] returns or raises [KeyError]; any other exception goes
    on to the caller. *)
Theorem stop_and_unsubscribe_swallow (w : World) (uuid : GattCharacteristics)
    (s : state) (Hclient : client s = true) :
  history (snd (stop w s)) = history s ++ [WriteGattChar UUID_COMMAND stop_command]
  /\ fst (stop w s)
     = match write_result w (history s ++ [WriteGattChar UUID_COMMAND stop_command])
               UUID_COMMAND stop_command with
       | None => Ret tt
       | Some e => if is_BleakError e then Ret tt else Raise e
       end
  /\ history (snd (unsubscribe w uuid s)) = history s ++ [StopNotify uuid]
  /\ fst (unsubscribe w uuid s)
     = match stop_notify_result w (history s ++ [StopNotify uuid]) with
       | None => Ret tt
       | Some e => if is_KeyError e then Ret tt else Raise e
       end.
Proof.
  destruct s as [h c]. simpl in *. subst c.
  unfold stop, unsubscribe, try_except, client_stop_notify. run_unfold.
  destruct (write_result w _ UUID_COMMAND stop_command) as [e |]; simpl;
    [destruct (is_BleakError e) |];
    (destruct (stop_notify_result w _) as [e' |]; simpl;
     [destruct (is_KeyError e') |]); repeat split; reflexivity.
Qed.

(** On a desk out of reach: both errors are swallowed. *)
Lemma stop_and_unsubscribe_swallow_witness :
  history (snd (stop unreachable_desk connected_state))
  = history connected_state ++ [WriteGattChar UUID_COMMAND stop_command]
  /\ fst (stop unreachable_desk connected_state)
     = match write_result unreachable_desk
               (history connected_state ++ [WriteGattChar UUID_COMMAND stop_command])
               UUID_COMMAND stop_command with
       | None => Ret tt
       | Some e => if is_BleakError e then Ret tt else Raise e
       end
  /\ history (snd (unsubscribe unreachable_desk UUID_HEIGHT connected_state))
     = history connected_state ++ [StopNotify UUID_HEIGHT]
  /\ fst (unsubscribe unreachable_desk UUID_HEIGHT connected_state)
     = match stop_notify_result unreachable_desk
               (history connected_state ++ [StopNotify UUID_HEIGHT]) with
       | None => Ret tt
       | Some e => if is_KeyError e then Ret tt else Raise e
       end.
Proof.
  apply (stop_and_unsubscribe_swallow unreachable_desk UUID_HEIGHT connected_state).
  reflexivity.
Defined.

(** X7.  [disconnect()] asks whether the link is up and closes it only
    then: on a link that is down it does nothing else and returns. *)
Theorem disconnect_only_when_connected (w : World) (s : state)
    (Hclient : client s = true) :
  history (snd (disconnect w s))
  = history s ++ IsConnected
      :: (if is_connected_result w (history s ++ [IsConnected])
          then [Disconnect] else [])
  /\ (is_connected_result w (history s ++ [IsConnected]) = false ->
      fst (disconnect w s) = Ret tt).
Proof.
  destruct s as [h c]. simpl in *. subst c.
  unfold disconnect. run_unfold.
  destruct (is_connected_result w _); simpl.
  - rewrite <- app_assoc. split; [| discriminate].
    destruct (disconnect_result w _); reflexivity.
  - split; reflexivity.
Qed.

(** On a desk out of reach the link is down. *)
Lemma disconnect_only_when_connected_witness :
  history (snd (disconnect unreachable_desk connected_state))
  = history connected_state ++ IsConnected
      :: (if is_connected_result unreachable_desk
               (history connected_state ++ [IsConnected])
          then [Disconnect] else [])
  /\ (is_connected_result unreachable_desk (history connected_state ++ [IsConnected])
      = false ->
      fst (disconnect unreachable_desk connected_state) = Ret tt).
Proof.
  apply (disconnect_only_when_connected unreachable_desk connected_state).
  reflexivity.
Defined.

(** X8.  [move_to] never lowers the desk.  When the position read first is
    at or above the target, the target is not written, whatever the world
    answers and whatever the fuel: the events are the read and, unless the
    position equals the target, the wake and stop writes; [move_to] then
    ends without entering its loop. *)
Theorem move_to_never_lowers (w : World) (target h0 sp : Z) (fuel : nat)
    (s : state) (data : list byte)
    (Hclient : client s = true)
    (Hread : read_result w (history s ++ [ReadGattChar UUID_HEIGHT]) UUID_HEIGHT
             = inr data)
    (Hframe : Struct.unpack_Hh data = Some (h0, sp))
    (Hbelow : target <= h0) :
  reference_writes (history (snd (move_to w target fuel s)))
  = reference_writes (history s)
  /\ ended (fst (move_to w target fuel s)) = true
  /\ (exists rest,
        history (snd (move_to w target fuel s))
        = history s ++ ReadGattChar UUID_HEIGHT :: rest
        /\ (rest = []
            \/ rest = [WriteGattChar UUID_COMMAND wake_command]
            \/ rest = [WriteGattChar UUID_COMMAND wake_command;
                       WriteGattChar UUID_COMMAND stop_command])).
Proof.
  destruct s as [h c]. simpl in *. subst c.
  unfold move_to, unpack, wake_up, stop, try_except. run_unfold.
  rewrite Hread. simpl. rewrite Hframe. simpl.
  destruct (h0 =? target) eqn:E; simpl.
  - unfold reference_writes. rewrite omap_app. simpl. rewrite app_nil_r.
    repeat split; try reflexivity. exists []. split; [reflexivity | now left].
  - destruct (write_result w _ UUID_COMMAND wake_command) as [e |]; simpl.
    + unfold reference_writes. rewrite <- !app_assoc, omap_app. simpl.
      rewrite app_nil_r. repeat split; try reflexivity.
      eexists. split; [reflexivity |]. right. now left.
    + rewrite (RunCommandFacts.move_to_loop_skipped w fuel h0 target Hbelow).
      destruct (write_result w _ UUID_COMMAND stop_command) as [e |]; simpl;
        [destruct (is_BleakError e); simpl |];
        unfold reference_writes; rewrite <- !app_assoc, omap_app; simpl;
        rewrite app_nil_r; repeat split; try reflexivity;
        eexists; (split; [reflexivity |]); right; now right.
Qed.

(** A desk at 1000 ticks asked to go to 800. *)
Lemma move_to_never_lowers_witness :
  reference_writes (history (snd (move_to (obedient_desk 1000) 800 3 connected_state)))
  = reference_writes (history connected_state)
  /\ ended (fst (move_to (obedient_desk 1000) 800 3 connected_state)) = true
  /\ (exists rest,
        history (snd (move_to (obedient_desk 1000) 800 3 connected_state))
        = history connected_state ++ ReadGattChar UUID_HEIGHT :: rest
        /\ (rest = []
            \/ rest = [WriteGattChar UUID_COMMAND wake_command]
            \/ rest = [WriteGattChar UUID_COMMAND wake_command;
                       WriteGattChar UUID_COMMAND stop_command])).
Proof.
  apply (move_to_never_lowers (obedient_desk 1000) 800 1000 0 3 connected_state
           (frame 1000 0)); try reflexivity.
  lia.
Defined.

Lemma reference_writes_snoc h e :
  not_reference_write e -> reference_writes (h ++ [e]) = reference_writes h.
Proof.
  intros H. unfold reference_writes. rewrite omap_app. simpl.
  destruct e; simpl; try apply app_nil_r.
  destruct uuid; simpl; try apply app_nil_r. destruct H.
Qed.

(** X9.  [move_to] wakes the desk and stops it before it writes a target:
    in every world, either no target is written at all, or the events of
    [move_to] start with the telemetry read, the wake write and the stop
    write. *)
Theorem wake_and_stop_come_first (w : World) (target : Z) (fuel : nat) (s : state) :
  reference_writes (history (snd (move_to w target fuel s)))
  = reference_writes (history s)
  \/ exists rest,
       history (snd (move_to w target fuel s))
       = history s ++ [ReadGattChar UUID_HEIGHT;
                       WriteGattChar UUID_COMMAND wake_command;
                       WriteGattChar UUID_COMMAND stop_command] ++ rest.
Proof.
  destruct s as [h [|]]; [| now left].
  unfold move_to, unpack, wake_up, stop, try_except. run_unfold.
  destruct (read_result w _ UUID_HEIGHT) as [e | data]; simpl.
  { left. now apply reference_writes_snoc. }
  destruct (Struct.unpack_Hh data) as [[h0 sp] |]; simpl.
  2: { left. now apply reference_writes_snoc. }
  destruct (h0 =? target); simpl.
  { left. now apply reference_writes_snoc. }
  destruct (write_result w _ UUID_COMMAND wake_command) as [e |]; simpl.
  { left. now rewrite !reference_writes_snoc. }
  right.
  assert (Hloop : forall s0, exists rest,
             history (snd (move_to_loop w fuel h0 target s0)) = history s0 ++ rest).
  { intros s0.
    destruct (RunCommandFacts.emits_move_to_loop w (fun _ => True)) with
      (fuel := fuel) (current := h0) (target := target) (s := s0)
      as (evs & E & _); try (intros; exact I).
    now exists evs. }
  destruct (write_result w _ UUID_COMMAND stop_command) as [e |]; simpl;
    [destruct (is_BleakError e); simpl |].
  - match goal with
    | |- context [move_to_loop w fuel h0 target ?s0] =>
        destruct (Hloop s0) as (rest & E)
    end.
    exists rest. rewrite E. simpl. now rewrite <- !app_assoc.
  - exists []. now rewrite <- !app_assoc.
  - match goal with
    | |- context [move_to_loop w fuel h0 target ?s0] =>
        destruct (Hloop s0) as (rest & E)
    end.
    exists rest. rewrite E. simpl. now rewrite <- !app_assoc.
Qed.

(** X10.  A target above 65535 is never written either: [move_to] does not
    return normally and leaves the reference-input endpoint alone; when the
    wake and stop writes return, the first iteration raises [struct.error]. *)
Theorem move_to_beyond_range (w : World) (target h0 sp : Z) (fuel : nat)
    (s : state) (data : list byte)
    (Hclient : client s = true)
    (Hread : read_result w (history s ++ [ReadGattChar UUID_HEIGHT]) UUID_HEIGHT
             = inr data)
    (Hframe : Struct.unpack_Hh data = Some (h0, sp))
    (Hbeyond : 65535 < target) :
  reference_writes (history (snd (move_to w target fuel s)))
  = reference_writes (history s)
  /\ returned (fst (move_to w target fuel s)) = false
  /\ (write_result w (history s ++ [ReadGattChar UUID_HEIGHT;
                                     WriteGattChar UUID_COMMAND wake_command])
        UUID_COMMAND wake_command = None ->
      write_result w (history s ++ [ReadGattChar UUID_HEIGHT;
                                    WriteGattChar UUID_COMMAND wake_command;
                                    WriteGattChar UUID_COMMAND stop_command])
        UUID_COMMAND stop_command = None ->
      move_to w target (S fuel) s
      = (Raise StructError,
         {| history := history s ++ [ReadGattChar UUID_HEIGHT;
                                     WriteGattChar UUID_COMMAND wake_command;
                                     WriteGattChar UUID_COMMAND stop_command];
            client := true |})).
Proof.
  pose proof (StructFacts.unpack_Hh_height_range _ _ _ Hframe) as Hr.
  assert (Hpack : Struct.pack_H target = None)
    by (apply StructFacts.pack_H_None; now right).
  assert (Hloop : forall n s0,
             move_to_loop w n h0 target s0
             = (match n with O => OutOfFuel | S _ => Raise StructError end, s0)).
  { intros n s0. destruct n; simpl; destruct (h0 <? target) eqn:E; try lia;
      [reflexivity |].
    unfold move_to_target, pack, bind. now rewrite Hpack. }
  destruct s as [h c]. simpl in *. subst c.
  unfold move_to, unpack, wake_up, stop, try_except. run_unfold.
  rewrite Hread. simpl. rewrite Hframe. simpl.
  destruct (h0 =? target) eqn:E; [lia |]. simpl.
  rewrite <- !app_assoc. simpl.
  destruct (write_result w (h ++ [ReadGattChar UUID_HEIGHT;
                                  WriteGattChar UUID_COMMAND wake_command])
              UUID_COMMAND wake_command) as [e |] eqn:Ew; simpl.
  - rewrite RelayFacts.reference_writes_app. simpl. rewrite app_nil_r.
    repeat split; try reflexivity. discriminate.
  - rewrite <- !app_assoc. simpl.
    destruct (write_result w (h ++ [ReadGattChar UUID_HEIGHT;
                                    WriteGattChar UUID_COMMAND wake_command;
                                    WriteGattChar UUID_COMMAND stop_command])
                UUID_COMMAND stop_command) as [e |] eqn:Es; simpl;
      [destruct (is_BleakError e); simpl |]; rewrite ?Hloop; simpl;
      rewrite RelayFacts.reference_writes_app; simpl; rewrite app_nil_r;
      (split; [reflexivity |]); (split; [now destruct fuel |]);
      intros _ H; try discriminate H;
      destruct (Z.ltb_spec h0 target); [| lia];
      unfold move_to_target, pack, bind; now rewrite Hpack.
Qed.

(** A desk at 1000 ticks asked to go to 70000. *)
Lemma move_to_beyond_range_witness :
  reference_writes (history (snd (move_to (obedient_desk 1000) 70000 3 connected_state)))
  = reference_writes (history connected_state)
  /\ returned (fst (move_to (obedient_desk 1000) 70000 3 connected_state)) = false
  /\ (write_result (obedient_desk 1000)
        (history connected_state ++ [ReadGattChar UUID_HEIGHT;
                                     WriteGattChar UUID_COMMAND wake_command])
        UUID_COMMAND wake_command = None ->
      write_result (obedient_desk 1000)
        (history connected_state ++ [ReadGattChar UUID_HEIGHT;
                                     WriteGattChar UUID_COMMAND wake_command;
                                     WriteGattChar UUID_COMMAND stop_command])
        UUID_COMMAND stop_command = None ->
      move_to (obedient_desk 1000) 70000 4 connected_state
      = (Raise StructError,
         {| history := history connected_state
                       ++ [ReadGattChar UUID_HEIGHT;
                           WriteGattChar UUID_COMMAND wake_command;
                           WriteGattChar UUID_COMMAND stop_command];
            client := true |})).
Proof.
  apply (move_to_beyond_range (obedient_desk 1000) 70000 1000 0 3 connected_state
           (frame 1000 0)); reflexivity.
Defined.

End AdapterFacts.

Module CommandFacts.

Import Py Effects Bluetooth Observations Scenarios EffectsFacts.

Local Open Scope run_scope.








(** X11.  With a true [watch], [run_command] never returns normally, and a
    [move_to] of the same configuration is ignored: after the position is
    read and logged, the run announces the watch, subscribes to the height
    endpoint and waits; it ends only when the wait is interrupted. *)
Theorem watch_waits_and_ignores_move_to (w : World) (base_height : Z)
    (config : gmap string value) (fuel : nat) (s : state)
    (Hwatch : truthy_opt (config !! "watch") = true) :
  returned (fst (run_command w base_height config fuel s)) = false
  /\ forall data h0 sp,
       client s = true ->
       read_result w (history s ++ [ReadGattChar UUID_HEIGHT]) UUID_HEIGHT = inr data ->
       Struct.unpack_Hh data = Some (h0, sp) ->
       start_notify_result w
         (history s ++ [ReadGattChar UUID_HEIGHT; Log (HeightLine h0);
                        Log WatchingLine; StartNotify UUID_HEIGHT]) = None ->
       run_command w base_height config fuel s
       = (match interrupt w (history s ++ [ReadGattChar UUID_HEIGHT;
                                           Log (HeightLine h0);
                                           Log WatchingLine;
                                           StartNotify UUID_HEIGHT]) with
          | Some e => Raise e
          | None => Hang
          end,
          {| history := history s ++ [ReadGattChar UUID_HEIGHT; Log (HeightLine h0);
                                      Log WatchingLine; StartNotify UUID_HEIGHT];
             client := true |}).
Proof.
  destruct s as [h c]. unfold run_command. rewrite Hwatch.
  unfold subscribe, wait_forever, unpack, final_report. run_unfold.
  split.
  - destruct c; [| reflexivity].
    destruct (read_result w _ UUID_HEIGHT) as [e | data]; [reflexivity |].
    destruct (Struct.unpack_Hh data) as [[h0 sp] |]; [| reflexivity]. simpl.
    destruct (start_notify_result w _); [reflexivity |].
    now destruct (interrupt w _).
  - intros data h0 sp -> Hread Hframe Hnotify. simpl.
    rewrite Hread, Hframe. simpl. rewrite <- !app_assoc. simpl.
    rewrite Hnotify.
    now destruct (interrupt w _).
Qed.

(** A configuration that asks for both a watch and a move to 700 mm. *)
Lemma watch_waits_and_ignores_move_to_witness :
  returned (fst (run_command (obedient_desk 1000) 620
                   {[ "watch" := Scalar (SBool true);
                      "move_to" := Scalar (SInt 700) ]} 3 connected_state)) = false
  /\ forall data h0 sp,
       client connected_state = true ->
       read_result (obedient_desk 1000)
         (history connected_state ++ [ReadGattChar UUID_HEIGHT]) UUID_HEIGHT
       = inr data ->
       Struct.unpack_Hh data = Some (h0, sp) ->
       start_notify_result (obedient_desk 1000)
         (history connected_state
          ++ [ReadGattChar UUID_HEIGHT; Log (HeightLine h0);
              Log WatchingLine; StartNotify UUID_HEIGHT]) = None ->
       run_command (obedient_desk 1000) 620
         {[ "watch" := Scalar (SBool true); "move_to" := Scalar (SInt 700) ]}
         3 connected_state
       = (match interrupt (obedient_desk 1000)
                  (history connected_state
                   ++ [ReadGattChar UUID_HEIGHT; Log (HeightLine h0);
                       Log WatchingLine; StartNotify UUID_HEIGHT]) with
          | Some e => Raise e
          | None => Hang
          end,
          {| history := history connected_state
                        ++ [ReadGattChar UUID_HEIGHT; Log (HeightLine h0);
                            Log WatchingLine; StartNotify UUID_HEIGHT];
             client := true |}).
Proof.
  apply (watch_waits_and_ignores_move_to (obedient_desk 1000) 620
           {[ "watch" := Scalar (SBool true); "move_to" := Scalar (SInt 700) ]}
           3 connected_state).
  reflexivity.
Defined.



(** X13.  A favourite wins over a number: when the value of [move_to] names
    a favourite with a non-zero height, the target is that height in raw
    units and the name is not read as a number, even if it is one. *)
Theorem favourite_before_number (w : World) (base_height : Z)
    (config : gmap string value) (fuel : nat) (h : list event)
    (data : list byte) (h0 sp mm : Z) (name : string) (d : gmap string scalar)
    (Hread : read_result w (h ++ [ReadGattChar UUID_HEIGHT]) UUID_HEIGHT = inr data)
    (Hframe : Struct.unpack_Hh data = Some (h0, sp))
    (Hwatch : truthy_opt (config !! "watch") = false)
    (Hmove : config !! "move_to" = Some (Scalar (SStr name)))
    (Hname : name <> EmptyString)
    (Hfavourites : default (Mapping ∅) (config !! "favourites") = Mapping d)
    (Hknown : d !! name = Some (SInt mm))
    (Hheight : mm <> 0) :
  run_command w base_height config fuel {| history := h; client := true |}
  = bind (move_to w ((mm - base_height) * 10) fuel)
      (fun _ => final_report w (Some ((mm - base_height) * 10)))
      {| history := h ++ [ReadGattChar UUID_HEIGHT; Log (HeightLine h0);
                          Log (MovingFavouriteLine (SStr name))];
         client := true |}.
Proof.
  assert (Ht : truthy (Scalar (SStr name)) = true)
    by (simpl; destruct name; [congruence | reflexivity]).
  assert (Hf : truthy_opt (Scalar <$> Some (SInt mm)) = true)
    by (simpl; now apply negb_true_iff, Z.eqb_neq).
  apply (RunCommandFacts.run_command_move w base_height config fuel h data h0 sp);
    try assumption.
  - unfold computed_target. rewrite Hwatch, Hmove, Hfavourites, Ht, Hknown, Hf.
    reflexivity.
  - unfold moving_line. rewrite Hmove, Hfavourites, Hknown, Hf. reflexivity.
Qed.

(** A favourite called 700 that stands for 1000 mm. *)
Lemma favourite_before_number_witness :
  run_command (obedient_desk 1000) 620
    {[ "move_to" := Scalar (SStr "700");
       "favourites" := Mapping {[ "700" := SInt 1000 ]} ]} 3
    {| history := []; client := true |}
  = bind (move_to (obedient_desk 1000) ((1000 - 620) * 10) 3)
      (fun _ => final_report (obedient_desk 1000) (Some ((1000 - 620) * 10)))
      {| history := [] ++ [ReadGattChar UUID_HEIGHT; Log (HeightLine 1000);
                           Log (MovingFavouriteLine (SStr "700"))];
         client := true |}.
Proof.
  apply (favourite_before_number (obedient_desk 1000) 620
           {[ "move_to" := Scalar (SStr "700");
              "favourites" := Mapping {[ "700" := SInt 1000 ]} ]} 3 []
           (frame 1000 0) 1000 0 1000 "700" {[ "700" := SInt 1000 ]});
    try reflexivity; discriminate.
Defined.




End CommandFacts.

Module ConnectFacts.

Import Py Effects Bluetooth Observations Scenarios EffectsFacts.

Local Open Scope run_scope.

Section Steady.

Variable p : event -> bool.

Lemma steady_refl s : steady p s s.
Proof. split; [reflexivity |]. exists []. now rewrite app_nil_r. Qed.

Lemma steady_trans s1 s2 s3 : steady p s1 s2 -> steady p s2 s3 -> steady p s1 s3.
Proof.
  intros (C1 & e1 & H1 & F1) (C2 & e2 & H2 & F2).
  split; [congruence |]. exists (e1 ++ e2).
  rewrite H2, H1, app_assoc. split; [reflexivity |].
  now rewrite forallb_app, F1, F2.
Qed.

Lemma steady_emit e : p e = true -> follows (steady p) (emit e).
Proof.
  intros H s. split; [reflexivity |]. exists [e]. simpl.
  now rewrite H.
Qed.

End Steady.

Ltac quiet :=
  first
    [ apply (ControllerFacts.follows_bind _ (steady_trans _)); [| intros ? ]
    | apply (ControllerFacts.follows_ret _ (steady_refl _))
    | apply (ControllerFacts.follows_raise _ (steady_refl _))
    | apply (ControllerFacts.follows_hang _ (steady_refl _))
    | apply (ControllerFacts.follows_out_of_fuel _ (steady_refl _))
    | apply (ControllerFacts.follows_get_history _ (steady_refl _))
    | apply (ControllerFacts.follows_get_client _ (steady_refl _))
    | apply (ControllerFacts.follows_of_result _ (steady_refl _))
    | apply (ControllerFacts.follows_of_status _ (steady_refl _))
    | apply (ControllerFacts.follows_getitem _ (steady_refl _))
    | apply (ControllerFacts.follows_with_client _ (steady_refl _) (steady_trans _))
    | apply (ControllerFacts.follows_try_except _ (steady_trans _)); [| intros ? ]
    | apply steady_emit; reflexivity
    | match goal with
      | |- follows _ (if ?b then _ else _) => destruct b
      | |- follows _ (match ?x with Some _ => _ | None => _ end) => destruct x
      end ].

Lemma steady_print_characteristics p cs :
  (forall m, p (Print m) = true) -> follows (steady p) (print_characteristics cs).
Proof.
  intros Hp. induction cs as [| [uuid description] cs IH]; simpl; [quiet |].
  unfold print. quiet; [apply steady_emit, Hp | exact IH].
Qed.

Lemma steady_print_services p ss :
  (forall m, p (Print m) = true) -> follows (steady p) (print_services ss).
Proof.
  intros Hp. induction ss as [| [uuid cs] ss IH]; simpl; [quiet |].
  unfold print. quiet; [apply steady_emit, Hp |].
  quiet; [now apply steady_print_characteristics | exact IH].
Qed.

Lemma follows_weaken (R R' : state -> state -> Prop) {A} (c : M A) :
  (forall s s', R s s' -> R' s s') -> follows R c -> follows R' c.
Proof. intros H Hc s. apply H, Hc. Qed.

(** X14.  [connect] never lets a [BleakError] escape: whatever the world
    answers, an exception of [connect] is another one (the handler ends the
    process with [exit(1)]). *)
Theorem connect_never_raises_bleak_error (w : World)
    (config : gmap string value) (s : state) :
  raises_only (fun e => negb (is_BleakError e)) (fst (connect w config s)).
Proof.
  unfold connect, try_except.
  match goal with |- context [?c s] => destruct (c s) as [[a | e | |] s1] end;
    simpl; trivial.
  destruct (is_BleakError e) eqn:E; simpl; [reflexivity | now rewrite E].
Qed.

(** X15.  [connect] on an adapter that holds a client object keeps that
    object: no client is created, on success and on failure alike. *)
Theorem connect_reuses_client (w : World) (config : gmap string value) (s : state)
    (Hclient : client s = true) :
  steady no_new_client s (snd (connect w config s)).
Proof.
  set (R := fun s s' : state => client s = true -> steady no_new_client s s').
  assert (R_trans : forall s1 s2 s3, R s1 s2 -> R s2 s3 -> R s1 s3).
  { intros s1 s2 s3 H12 H23 H1. specialize (H12 H1).
    eapply steady_trans; [exact H12 |]. apply H23.
    destruct H12 as [-> _]. exact H1. }
  assert (lift : forall A (c : M A), follows (steady no_new_client) c -> follows R c).
  { intros A c. apply follows_weaken. intros s1 s2 H _. exact H. }
  revert s Hclient. change (follows R (connect w config)).
  unfold connect, client_connect, client_get_services, print.
  apply (ControllerFacts.follows_try_except _ R_trans).
  - apply (ControllerFacts.follows_bind _ R_trans); [apply lift; quiet |].
    intros _ s Hc. unfold bind at 1. unfold get_client at 1. cbv iota beta.
    rewrite Hc. simpl negb. cbv iota.
    match goal with
    | |- steady _ s (snd (?c s)) =>
        enough (H : follows (steady no_new_client) c) by apply H
    end.
    repeat quiet. now apply steady_print_services.
  - intros e. apply lift. repeat quiet.
Qed.

(** An adapter that holds a client, connecting again. *)
Lemma connect_reuses_client_witness :
  steady no_new_client connected_state
    (snd (connect (obedient_desk 1000) direct_config connected_state)).
Proof.
  apply (connect_reuses_client (obedient_desk 1000) direct_config connected_state).
  reflexivity.
Defined.

(** X16.  A first connection attempt that fails with [BleakError]: the
    client object is created before the attempt and stays, the two lines of
    the handler are printed, and [connect] ends with [SystemExit(1)]. *)
Theorem connect_failure_exits (w : World) (config : gmap string value) (s : state)
    (mac adapter timeout : value)
    (Hclient : client s = false)
    (Hmac : config !! "mac_address" = Some mac)
    (Hadapter : config !! "adapter_name" = Some adapter)
    (Htimeout : config !! "connection_timeout" = Some timeout)
    (Hfail : connect_result w
               (history s ++ [Print ("Connecting" ++ CR); NewClient mac adapter;
                              Connect timeout]) = Some BleakError) :
  connect w config s
  = (Raise (SystemExit 1),
     {| history := history s ++ [Print ("Connecting" ++ CR); NewClient mac adapter;
                                 Connect timeout; Print "Connecting failed";
                                 PrintExn "{}" BleakError];
        client := true |}).
Proof.
  destruct s as [h c]. simpl in *. subst c.
  unfold connect, try_except, client_connect, getitem.
  rewrite Hmac, Hadapter, Htimeout. run_unfold. unfold set_client. simpl.
  rewrite <- !app_assoc. simpl. rewrite Hfail. simpl.
  now rewrite <- !app_assoc.
Qed.

(** The desk out of reach, from a fresh process. *)
Lemma connect_failure_exits_witness :
  connect unreachable_desk direct_config Controller.initial_state
  = (Raise (SystemExit 1),
     {| history := history Controller.initial_state
                   ++ [Print ("Connecting" ++ CR);
                       NewClient (Scalar (SStr "AA:BB:CC:DD:EE:FF")) (Scalar (SStr "hci0"));
                       Connect (Scalar (SInt 10)); Print "Connecting failed";
                       PrintExn "{}" BleakError];
        client := true |}).
Proof.
  apply (connect_failure_exits unreachable_desk direct_config Controller.initial_state
           (Scalar (SStr "AA:BB:CC:DD:EE:FF")) (Scalar (SStr "hci0")) (Scalar (SInt 10)));
    reflexivity.
Defined.

(** X17.  A scan that succeeds returns the devices found and prints the
    count with the adapter name, then every device in the order found; it
    never touches the client. *)
Theorem scan_lists_devices (w : World) (config : gmap string value) (s : state)
    (adapter timeout : value) (devices : list string)
    (Hadapter : config !! "adapter_name" = Some adapter)
    (Htimeout : config !! "scan_timeout" = Some timeout)
    (Hfound : discover_result w (history s ++ [Print ("Scanning" ++ CR); Discover])
              = inr devices) :
  scan w config s
  = (Ret devices,
     {| history := history s
                   ++ [Print ("Scanning" ++ CR); Discover;
                       PrintFormat "Found {} devices using {}"
                         [Scalar (SInt (Z.of_nat (length devices))); adapter]]
                   ++ (Print <$> devices);
        client := client s |}).
Proof.
  destruct s as [h c]. simpl in *.
  unfold scan, getitem. rewrite Hadapter, Htimeout. run_unfold.
  rewrite <- !app_assoc. simpl. rewrite Hfound. simpl.
  rewrite <- !app_assoc. simpl.
  assert (H : forall ds h1,
             (fix each (ds : list string) : M unit :=
                match ds with
                | [] => fun s => (Ret tt, s)
                | d :: ds' =>
                    fun s => match (Ret tt, {| history := history s ++ [Print d]; client := client s |}) with
                             | (Ret _, s') => each ds' s'
                             | (Raise e, s') => (Raise e, s')
                             | (Hang, s') => (Hang, s')
                             | (OutOfFuel, s') => (OutOfFuel, s')
                             end
                end) ds {| history := h1; client := c |}
             = (Ret tt, {| history := h1 ++ (Print <$> ds); client := c |})).
  { induction ds as [| d ds IH]; intros h1; simpl; [now rewrite app_nil_r |].
    rewrite IH, <- app_assoc. reflexivity. }
  rewrite H, <- !app_assoc. reflexivity.
Qed.

(** A scan that finds two desks. *)
Lemma scan_lists_devices_witness :
  scan room_with_two_desks direct_config Controller.initial_state
  = (Ret ["AA:BB:CC:DD:EE:FF: Desk 1234"; "11:22:33:44:55:66: Desk 5678"],
     {| history := history Controller.initial_state
                   ++ [Print ("Scanning" ++ CR); Discover;
                       PrintFormat "Found {} devices using {}"
                         [Scalar (SInt (Z.of_nat (length
                            ["AA:BB:CC:DD:EE:FF: Desk 1234";
                             "11:22:33:44:55:66: Desk 5678"])));
                          Scalar (SStr "hci0")]]
                   ++ (Print <$> ["AA:BB:CC:DD:EE:FF: Desk 1234";
                                  "11:22:33:44:55:66: Desk 5678"]);
        client := client Controller.initial_state |}).
Proof.
  apply (scan_lists_devices room_with_two_desks direct_config
           Controller.initial_state (Scalar (SStr "hci0")) (Scalar (SInt 5)));
    reflexivity.
Defined.

End ConnectFacts.

Module UserConfigFacts.

Import Py Effects Bluetooth Observations Scenarios EffectsFacts.

Section UserConfig.

Variable DEFAULT_CONFIG_PATH EXAMPLE_CONFIG_PATH : string.

Lemma copy_default_config_present (fs : gmap string Config.document) :
  is_Some (fs !! DEFAULT_CONFIG_PATH) ->
  Config._copy_default_config DEFAULT_CONFIG_PATH EXAMPLE_CONFIG_PATH fs = ret fs.
Proof. intros [d H]. unfold Config._copy_default_config. now rewrite H. Qed.

Lemma eqb_empty_false (path : string) :
  path <> EmptyString -> negb (String.eqb path EmptyString) = true.
Proof. intros H. apply negb_true_iff, String.eqb_neq, H. Qed.

Lemma init_with_file (fs : gmap string Config.document)
    (args : gmap string value) (s : state) (path : string) (doc : Config.document)
    (Hdefault : is_Some (fs !! DEFAULT_CONFIG_PATH))
    (Hconfig : args !! "config" = Some (Scalar (SStr path)))
    (Hpath : path <> EmptyString)
    (Hfile : fs !! path = Some doc) :
  Config.__init__ DEFAULT_CONFIG_PATH EXAMPLE_CONFIG_PATH fs args s
  = match doc with
    | Config.YamlMapping config_file =>
        (Ret (args ∪ (config_file ∪ Config.DEFAULT_CONFIG)), s)
    | Config.YamlEmpty => (Raise TypeError, s)
    | Config.YamlError =>
        (Raise (SystemExit 1),
         {| history := history s ++ [Print "Reading config.yaml failed:";
                                     PrintExn "{}" YAMLError];
            client := client s |})
    end.
Proof.
  unfold Config.__init__. rewrite (copy_default_config_present _ Hdefault).
  unfold getitem. rewrite Hconfig.
  unfold bind at 1. unfold ret at 1. cbv iota beta.
  unfold bind at 1. unfold ret at 1. cbv iota beta.
  unfold bind at 1. unfold ret at 1. cbv iota beta.
  rewrite (eqb_empty_false _ Hpath).
  unfold Config.isfile. rewrite Hfile.
  rewrite bool_decide_eq_true_2 by eauto. cbn [andb].
  unfold Config._read_custom_file. rewrite Hfile.
  destruct s as [h c]. destruct doc; run_unfold; try reflexivity.
  now rewrite <- app_assoc.
Qed.

Lemma init_without_file_helper (fs : gmap string Config.document)
    (args : gmap string value) (s : state) (path : string)
    (Hdefault : is_Some (fs !! DEFAULT_CONFIG_PATH))
    (Hconfig : args !! "config" = Some (Scalar (SStr path)))
    (Hmissing : path = EmptyString \/ fs !! path = None) :
  Config.__init__ DEFAULT_CONFIG_PATH EXAMPLE_CONFIG_PATH fs args s
  = (Ret (args ∪ Config.DEFAULT_CONFIG),
     {| history := history s ++ [Print "No custom config file provided or not found!"];
        client := client s |}).
Proof.
  unfold Config.__init__. rewrite (copy_default_config_present _ Hdefault).
  unfold getitem. rewrite Hconfig.
  unfold bind at 1. unfold ret at 1. cbv iota beta.
  unfold bind at 1. unfold ret at 1. cbv iota beta.
  unfold bind at 1. unfold ret at 1. cbv iota beta.
  assert (E : negb (String.eqb path EmptyString) && Config.isfile fs path = false).
  { destruct Hmissing as [-> | H]; [reflexivity |].
    unfold Config.isfile. rewrite H.
    rewrite bool_decide_eq_false_2; [apply andb_false_r |].
    intros [x Hx]. discriminate. }
  rewrite E. destruct s as [h c]. reflexivity.
Qed.

End UserConfig.

Lemma union_lookup_first {V} (m1 m2 : gmap string V) (key : string) :
  (m1 ∪ m2) !! key = match m1 !! key with Some v => Some v | None => m2 !! key end.
Proof.
  destruct (m1 !! key) as [v |] eqn:E.
  - now apply lookup_union_Some_l.
  - now apply lookup_union_r.
Qed.

Lemma get_parsed_args_lookup (namespace : gmap string value) (key : string) :
  Controller.get_parsed_args namespace !! key
  = match namespace !! key with
    | Some v => if decide (v = Scalar SNone) then None else Some v
    | None => None
    end.
Proof.
  unfold Controller.get_parsed_args.
  destruct (namespace !! key) as [v |] eqn:E.
  - destruct (decide (v = Scalar SNone)) as [-> | Hv].
    + apply map_lookup_filter_None. right. intros x Hx. simpl.
      rewrite E in Hx. injection Hx as <-. tauto.
    + apply map_lookup_filter_Some. split; [exact E | exact Hv].
  - apply map_lookup_filter_None. now left.
Qed.

(** X18.  Where a setting comes from: an option given on the command line
    wins, then the configuration file, then the defaults; an option left
    unset ([None] in the parsed namespace) hides neither the file nor the
    defaults. *)
Theorem options_over_file_over_defaults (DEFAULT_CONFIG_PATH EXAMPLE_CONFIG_PATH : string)
    (fs : gmap string Config.document) (namespace config_file : gmap string value)
    (s : state) (path : string)
    (Hdefault : is_Some (fs !! DEFAULT_CONFIG_PATH))
    (Hconfig : namespace !! "config" = Some (Scalar (SStr path)))
    (Hpath : path <> EmptyString)
    (Hfile : fs !! path = Some (Config.YamlMapping config_file)) :
  exists config,
    Config.__init__ DEFAULT_CONFIG_PATH EXAMPLE_CONFIG_PATH fs
      (Controller.get_parsed_args namespace) s
    = (Ret config, s)
    /\ forall key,
         config !! key
         = match namespace !! key with
           | Some v =>
               if decide (v = Scalar SNone)
               then match config_file !! key with
                    | Some v' => Some v'
                    | None => Config.DEFAULT_CONFIG !! key
                    end
               else Some v
           | None =>
               match config_file !! key with
               | Some v' => Some v'
               | None => Config.DEFAULT_CONFIG !! key
               end
           end.
Proof.
  eexists. split.
  - apply (init_with_file DEFAULT_CONFIG_PATH EXAMPLE_CONFIG_PATH fs _ s path
             (Config.YamlMapping config_file)); try assumption.
    rewrite get_parsed_args_lookup, Hconfig. reflexivity.
  - intros key. rewrite !union_lookup_first, get_parsed_args_lookup.
    destruct (namespace !! key) as [v |]; [| reflexivity].
    now destruct (decide (v = Scalar SNone)).
Qed.

(** The plain command line over a file that gives the address. *)
Lemma options_over_file_over_defaults_witness :
  exists config,
    Config.__init__ default_path example_path (files lowercase_file)
      (Controller.get_parsed_args plain_namespace) Controller.initial_state
    = (Ret config, Controller.initial_state)
    /\ forall key,
         config !! key
         = match plain_namespace !! key with
           | Some v =>
               if decide (v = Scalar SNone)
               then match lowercase_file !! key with
                    | Some v' => Some v'
                    | None => Config.DEFAULT_CONFIG !! key
                    end
               else Some v
           | None =>
               match lowercase_file !! key with
               | Some v' => Some v'
               | None => Config.DEFAULT_CONFIG !! key
               end
           end.
Proof.
  apply (options_over_file_over_defaults default_path example_path
           (files lowercase_file) plain_namespace lowercase_file
           Controller.initial_state "config.yaml").
  - vm_compute. eauto.
  - reflexivity.
  - discriminate.
  - reflexivity.
Defined.

(** X19.  A configuration file that is invalid YAML or an empty document
    ends the program before any configuration exists: invalid YAML prints two
    lines and exits with status 1; an empty document raises [TypeError]. *)
Theorem unreadable_file_stops_the_program (DEFAULT_CONFIG_PATH EXAMPLE_CONFIG_PATH : string)
    (fs : gmap string Config.document) (args : gmap string value) (s : state)
    (path : string) (doc : Config.document)
    (Hdefault : is_Some (fs !! DEFAULT_CONFIG_PATH))
    (Hconfig : args !! "config" = Some (Scalar (SStr path)))
    (Hpath : path <> EmptyString)
    (Hfile : fs !! path = Some doc)
    (Hbroken : forall config_file, doc <> Config.YamlMapping config_file) :
  (doc = Config.YamlError /\
   Config.__init__ DEFAULT_CONFIG_PATH EXAMPLE_CONFIG_PATH fs args s
   = (Raise (SystemExit 1),
      {| history := history s ++ [Print "Reading config.yaml failed:";
                                  PrintExn "{}" YAMLError];
         client := client s |}))
  \/ (doc = Config.YamlEmpty /\
      Config.__init__ DEFAULT_CONFIG_PATH EXAMPLE_CONFIG_PATH fs args s
      = (Raise TypeError, s)).
Proof.
  pose proof (init_with_file DEFAULT_CONFIG_PATH EXAMPLE_CONFIG_PATH fs args s path doc
                Hdefault Hconfig Hpath Hfile) as H.
  destruct doc as [d | |]; [now destruct (Hbroken d) | right | left]; now split.
Qed.

(** X20.  Without a configuration file (an empty path, or a path that is
    no file) the program says so and runs on the options over the
    defaults. *)
Theorem missing_file_falls_back (DEFAULT_CONFIG_PATH EXAMPLE_CONFIG_PATH : string)
    (fs : gmap string Config.document)
    (args : gmap string value) (s : state) (path : string)
    (Hdefault : is_Some (fs !! DEFAULT_CONFIG_PATH))
    (Hconfig : args !! "config" = Some (Scalar (SStr path)))
    (Hmissing : path = EmptyString \/ fs !! path = None) :
  Config.__init__ DEFAULT_CONFIG_PATH EXAMPLE_CONFIG_PATH fs args s
  = (Ret (args ∪ Config.DEFAULT_CONFIG),
     {| history := history s ++ [Print "No custom config file provided or not found!"];
        client := client s |})
  /\ forall key,
       (args ∪ Config.DEFAULT_CONFIG) !! key
       = match args !! key with
         | Some v => Some v
         | None => Config.DEFAULT_CONFIG !! key
         end.
Proof.
  split; [| intros key; apply union_lookup_first].
  apply (init_without_file_helper DEFAULT_CONFIG_PATH EXAMPLE_CONFIG_PATH fs args s path);
    assumption.
Qed.

(** X21.  [_copy_default_config] installs the example once: afterwards the
    default file exists, every other file is as it was, an existing default
    file is never overwritten, a missing one is the example, and a second
    call changes nothing. *)
Theorem copy_default_config_once (DEFAULT_CONFIG_PATH EXAMPLE_CONFIG_PATH : string)
    (fs fs' : gmap string Config.document) (s s' : state)
    (Hcopy : Config._copy_default_config DEFAULT_CONFIG_PATH EXAMPLE_CONFIG_PATH fs s
             = (Ret fs', s')) :
  s' = s
  /\ is_Some (fs' !! DEFAULT_CONFIG_PATH)
  /\ (forall path, path <> DEFAULT_CONFIG_PATH -> fs' !! path = fs !! path)
  /\ (is_Some (fs !! DEFAULT_CONFIG_PATH) -> fs' = fs)
  /\ (fs !! DEFAULT_CONFIG_PATH = None -> fs' !! DEFAULT_CONFIG_PATH = fs !! EXAMPLE_CONFIG_PATH)
  /\ Config._copy_default_config DEFAULT_CONFIG_PATH EXAMPLE_CONFIG_PATH fs' s'
     = (Ret fs', s').
Proof.
  unfold Config._copy_default_config in *.
  destruct (fs !! DEFAULT_CONFIG_PATH) as [d |] eqn:Ed.
  - injection Hcopy as <- <-. rewrite Ed.
    repeat split; eauto. discriminate.
  - destruct (fs !! EXAMPLE_CONFIG_PATH) as [e |] eqn:Ee; [| discriminate].
    injection Hcopy as <- <-. rewrite lookup_insert_eq.
    repeat split; eauto.
    + intros path Hp. now apply lookup_insert_ne.
    + intros [x Hx]. discriminate.
Qed.

(** X22.  On a first run with the default path, the example file is copied
    and then read as the configuration file. *)
Theorem first_run_reads_the_example (DEFAULT_CONFIG_PATH EXAMPLE_CONFIG_PATH : string)
    (fs : gmap string Config.document) (args example : gmap string value) (s : state)
    (Hfirst : fs !! DEFAULT_CONFIG_PATH = None)
    (Hexample : fs !! EXAMPLE_CONFIG_PATH = Some (Config.YamlMapping example))
    (Hconfig : args !! "config" = Some (Scalar (SStr DEFAULT_CONFIG_PATH)))
    (Hpath : DEFAULT_CONFIG_PATH <> EmptyString) :
  Config.__init__ DEFAULT_CONFIG_PATH EXAMPLE_CONFIG_PATH fs args s
  = (Ret (args ∪ (example ∪ Config.DEFAULT_CONFIG)), s).
Proof.
  unfold Config.__init__, Config._copy_default_config.
  rewrite Hfirst, Hexample. unfold getitem. rewrite Hconfig.
  unfold bind at 1. unfold ret at 1. cbv iota beta.
  unfold bind at 1. unfold ret at 1. cbv iota beta.
  unfold bind at 1. unfold ret at 1. cbv iota beta.
  rewrite (eqb_empty_false _ Hpath).
  unfold Config.isfile, Config._read_custom_file. rewrite lookup_insert_eq.
  rewrite bool_decide_eq_true_2 by eauto. reflexivity.
Qed.


Lemma truthy_string (mac : string) :
  truthy (Scalar (SStr mac)) = negb (String.eqb mac EmptyString).
Proof. now destruct mac. Qed.


Lemma validate_offset_typed (offset_key height_key template : string)
    (config : gmap string value) (s : state) (r b : Z) :
  config !! "movement_range" = Some (Scalar (SInt r)) ->
  config !! "base_height" = Some (Scalar (SInt b)) ->
  (forall v, config !! offset_key = Some v -> exists o, v = Scalar (SInt o)) ->
  Config.validate_offset offset_key height_key template config s
  = match config !! offset_key with
    | Some (Scalar (SInt o)) =>
        if offset_in_range config offset_key r
        then (Ret (<[height_key := Scalar (SInt (b + o))]> config), s)
        else (Raise (SystemExit 1),
              emit_state (PrintFormat template [Scalar (SInt r)]) s)
    | _ => (Ret config, s)
    end.
Proof.
  intros Hr Hb Ht.
  unfold Config.validate_offset, offset_in_range, Config.le, Config.add,
    Config._log_error, getitem.
  destruct (config !! offset_key) as [v |]; [| reflexivity].
  destruct (Ht v eq_refl) as [o ->]. rewrite Hr, Hb. run_unfold.
  destruct (0 <=? o); simpl; [destruct (o <=? r) |]; reflexivity.
Qed.

(** X24.  On a well-typed configuration [_validate_config] reports the
    first problem only, in the order address, sit offset, stand offset, and
    exits with status 1; it returns exactly when there is none. *)
Theorem validate_config_first_complaint (platform : string)
    (config : gmap string value) (s : state) (mac : string) (r b : Z)
    (Hmac : config !! "mac_address" = Some (Scalar (SStr mac)))
    (Hrange : config !! "movement_range" = Some (Scalar (SInt r)))
    (Hbase : config !! "base_height" = Some (Scalar (SInt b)))
    (Hsit : forall v, config !! "sit_height_offset" = Some v ->
                      exists o, v = Scalar (SInt o))
    (Hstand : forall v, config !! "stand_height_offset" = Some v ->
                        exists o, v = Scalar (SInt o)) :
  match first_complaint config mac r with
  | Some message =>
      Config._validate_config platform config s
      = (Raise (SystemExit 1), emit_state message s)
  | None =>
      returned (fst (Config._validate_config platform config s)) = true
  end.
Proof.
  remember (Config._validate_config platform config s) as outcome eqn:Eo.
  revert Eo.
  unfold Config._validate_config, first_complaint, Config._log_error.
  unfold getitem at 1. rewrite Hmac.
  unfold bind at 1. unfold ret at 1. cbv iota beta.
  rewrite truthy_string, negb_involutive.
  destruct (String.eqb mac EmptyString); [now intros -> |].
  unfold bind at 1. unfold ret at 1. cbv iota beta.
  unfold bind at 1.
  rewrite (validate_offset_typed _ _ _ config s r b Hrange Hbase Hsit).
  set (c1 := match config !! "sit_height_offset" with
             | Some (Scalar (SInt o)) => <["sit_height" := Scalar (SInt (b + o))]> config
             | _ => config
             end).
  assert (H1 : forall key, key <> "sit_height" -> c1 !! key = config !! key).
  { intros key Hk. unfold c1.
    destruct (config !! "sit_height_offset") as [[[] |] |]; try reflexivity.
    now apply lookup_insert_ne. }
  assert (E : match config !! "sit_height_offset" with
              | Some (Scalar (SInt o)) =>
                  if offset_in_range config "sit_height_offset" r
                  then (Ret (<["sit_height" := Scalar (SInt (b + o))]> config), s)
                  else (Raise (SystemExit 1),
                        emit_state
                          (PrintFormat "Sit height offset must be within [0, {}]"
                             [Scalar (SInt r)]) s)
              | _ => (Ret config, s)
              end
              = if offset_in_range config "sit_height_offset" r
                then (Ret c1, s)
                else (Raise (SystemExit 1),
                      emit_state
                        (PrintFormat "Sit height offset must be within [0, {}]"
                           [Scalar (SInt r)]) s)).
  { unfold c1, offset_in_range.
    destruct (config !! "sit_height_offset") as [[[] |] |]; reflexivity. }
  rewrite E. clear E.
  destruct (offset_in_range config "sit_height_offset" r); [| now intros ->].
  cbv iota beta. cbn [negb].
  assert (Hin : offset_in_range c1 "stand_height_offset" r
                = offset_in_range config "stand_height_offset" r).
  { unfold offset_in_range. now rewrite H1. }
  unfold bind at 1.
  rewrite (validate_offset_typed _ _ _ c1 s r b).
  2: now rewrite H1.
  2: now rewrite H1.
  2: { intros v. rewrite H1 by discriminate. apply Hstand. }
  set (c2 := match c1 !! "stand_height_offset" with
             | Some (Scalar (SInt o)) =>
                 <["stand_height" := Scalar (SInt (b + o))]> c1
             | _ => c1
             end).
  assert (H2 : c2 !! "mac_address" = Some (Scalar (SStr mac))).
  { unfold c2. destruct (c1 !! "stand_height_offset") as [[[] |] |];
      rewrite ?lookup_insert_ne by discriminate; now rewrite H1. }
  assert (E : match c1 !! "stand_height_offset" with
              | Some (Scalar (SInt o)) =>
                  if offset_in_range c1 "stand_height_offset" r
                  then (Ret (<["stand_height" := Scalar (SInt (b + o))]> c1), s)
                  else (Raise (SystemExit 1),
                        emit_state
                          (PrintFormat "Stand height offset must be within [0, {}]"
                             [Scalar (SInt r)]) s)
              | _ => (Ret c1, s)
              end
              = if offset_in_range c1 "stand_height_offset" r
                then (Ret c2, s)
                else (Raise (SystemExit 1),
                      emit_state
                        (PrintFormat "Stand height offset must be within [0, {}]"
                           [Scalar (SInt r)]) s)).
  { unfold c2, offset_in_range.
    destruct (c1 !! "stand_height_offset") as [[[] |] |]; reflexivity. }
  rewrite E, Hin. clear E.
  destruct (offset_in_range config "stand_height_offset" r); [| now intros ->].
  cbv iota beta. cbn [negb]. unfold getitem. rewrite H2.
  unfold bind, ret. cbv iota beta.
  intros ->. now destruct (String.eqb platform "win32").
Qed.


(** The plain command line over a file with a sit offset of -1. *)
Lemma validate_config_first_complaint_witness :
  match first_complaint (built_config offset_file) "AA:BB:CC:DD:EE:FF" 650 with
  | Some message =>
      Config._validate_config "linux" (built_config offset_file) Controller.initial_state
      = (Raise (SystemExit 1), emit_state message Controller.initial_state)
  | None =>
      returned (fst (Config._validate_config "linux" (built_config offset_file)
                       Controller.initial_state)) = true
  end.
Proof.
  apply (validate_config_first_complaint "linux" (built_config offset_file)
           Controller.initial_state "AA:BB:CC:DD:EE:FF" 650 620);
    try reflexivity;
    intros v H; vm_compute in H; first [discriminate H | injection H as <-; eauto].
Defined.

(** A configuration file that is no valid YAML. *)
Lemma unreadable_file_stops_the_program_witness :
  (Config.YamlError = Config.YamlError /\
   Config.__init__ default_path example_path broken_files
     (Controller.get_parsed_args plain_namespace) Controller.initial_state
   = (Raise (SystemExit 1),
      {| history := history Controller.initial_state
                    ++ [Print "Reading config.yaml failed:"; PrintExn "{}" YAMLError];
         client := client Controller.initial_state |}))
  \/ (Config.YamlError = Config.YamlEmpty /\
      Config.__init__ default_path example_path broken_files
        (Controller.get_parsed_args plain_namespace) Controller.initial_state
      = (Raise TypeError, Controller.initial_state)).
Proof.
  apply (unreadable_file_stops_the_program default_path example_path broken_files
           (Controller.get_parsed_args plain_namespace) Controller.initial_state
           "config.yaml" Config.YamlError).
  - vm_compute. eauto.
  - reflexivity.
  - discriminate.
  - reflexivity.
  - discriminate.
Defined.

(** The plain command line when [config.yaml] does not exist. *)
Lemma missing_file_falls_back_witness :
  Config.__init__ default_path example_path {[ default_path := Config.YamlMapping ∅ ]}
    (Controller.get_parsed_args plain_namespace) Controller.initial_state
  = (Ret (Controller.get_parsed_args plain_namespace ∪ Config.DEFAULT_CONFIG),
     {| history := history Controller.initial_state
                   ++ [Print "No custom config file provided or not found!"];
        client := client Controller.initial_state |})
  /\ forall key,
       (Controller.get_parsed_args plain_namespace ∪ Config.DEFAULT_CONFIG) !! key
       = match Controller.get_parsed_args plain_namespace !! key with
         | Some v => Some v
         | None => Config.DEFAULT_CONFIG !! key
         end.
Proof.
  apply (missing_file_falls_back default_path example_path
           {[ default_path := Config.YamlMapping ∅ ]}
           (Controller.get_parsed_args plain_namespace) Controller.initial_state
           "config.yaml").
  - vm_compute. eauto.
  - reflexivity.
  - right. reflexivity.
Defined.

(** A fresh installation. *)
Lemma copy_default_config_once_witness :
  Controller.initial_state = Controller.initial_state
  /\ is_Some (<[default_path := Config.YamlMapping lowercase_file]> fresh_files
              !! default_path)
  /\ (forall path, path <> default_path ->
       <[default_path := Config.YamlMapping lowercase_file]> fresh_files !! path
       = fresh_files !! path)
  /\ (is_Some (fresh_files !! default_path) ->
      <[default_path := Config.YamlMapping lowercase_file]> fresh_files = fresh_files)
  /\ (fresh_files !! default_path = None ->
      <[default_path := Config.YamlMapping lowercase_file]> fresh_files !! default_path
      = fresh_files !! example_path)
  /\ Config._copy_default_config default_path example_path
       (<[default_path := Config.YamlMapping lowercase_file]> fresh_files)
       Controller.initial_state
     = (Ret (<[default_path := Config.YamlMapping lowercase_file]> fresh_files),
        Controller.initial_state).
Proof.
  apply (copy_default_config_once default_path example_path fresh_files
           (<[default_path := Config.YamlMapping lowercase_file]> fresh_files)
           Controller.initial_state Controller.initial_state).
  reflexivity.
Defined.

(** The first run of [linak-controller] with the default path. *)
Lemma first_run_reads_the_example_witness :
  Config.__init__ default_path example_path fresh_files
    {[ "config" := Scalar (SStr default_path) ]} Controller.initial_state
  = (Ret ({[ "config" := Scalar (SStr default_path) ]}
          ∪ (lowercase_file ∪ Config.DEFAULT_CONFIG)),
     Controller.initial_state).
Proof.
  apply (first_run_reads_the_example default_path example_path fresh_files
           {[ "config" := Scalar (SStr default_path) ]} lowercase_file
           Controller.initial_state).
  - reflexivity.
  - reflexivity.
  - reflexivity.
  - discriminate.
Defined.

End UserConfigFacts.

Module RunFacts.

Import Py Effects Bluetooth Observations Scenarios EffectsFacts ConnectFacts.

Local Open Scope run_scope.

Lemma print_all_prints (messages : list string) (s : state) :
  Controller.print_all messages s
  = (Ret tt, {| history := history s ++ (Print <$> messages); client := client s |}).
Proof.
  revert s. induction messages as [| m ms IH]; intros [h c]; simpl.
  - now rewrite app_nil_r.
  - unfold bind, print, emit, emit_state. simpl. rewrite IH. simpl.
    now rewrite <- app_assoc.
Qed.

(** X25.  [forward_command] sends the [move_to] entry of the configuration
    and nothing else: the payload has that entry exactly when the
    configuration has it, and no other key.  Every message that comes back is
    printed, and the call ends as the exchange ends. *)
Theorem forward_sends_only_move_to (w : World) (user_config : gmap string value)
    (s : state) (address port : value)
    (Haddress : user_config !! "server_address" = Some address)
    (Hport : user_config !! "server_port" = Some port) :
  exists payload,
    (payload !! "move_to" = user_config !! "move_to"
     /\ forall key, key <> "move_to" -> payload !! key = None)
    /\ Controller.forward_command w user_config s
       = (match snd (forward_result w (history s ++ [Forward payload])) with
          | Some e => Raise e
          | None => Ret tt
          end,
          {| history := history s ++ Forward payload
                        :: (Print <$> fst (forward_result w
                                             (history s ++ [Forward payload])));
             client := client s |}).
Proof.
  exists (list_to_map
            (omap (fun key => (fun v => (key, v)) <$> user_config !! key) ["move_to"])).
  split.
  - simpl. destruct (user_config !! "move_to") as [v |]; simpl.
    + split; [apply lookup_insert_eq |].
      intros key Hk. rewrite lookup_insert_ne by congruence. apply lookup_empty.
    + split; [apply lookup_empty |]. intros. apply lookup_empty.
  - unfold Controller.forward_command, getitem. rewrite Haddress, Hport.
    destruct s as [h c]. run_unfold.
    rewrite print_all_prints. simpl. rewrite <- app_assoc. simpl.
    destruct (forward_result w _) as [ms [e |]]; reflexivity.
Qed.

Lemma follows_ret_bind (R : state -> state -> Prop) {A B} (a : A) (k : A -> M B) :
  follows R (k a) -> follows R (bind (ret a) k).
Proof. intros H s. exact (H s). Qed.

Lemma steady_print_all p messages :
  (forall m, p (Print m) = true) -> follows (steady p) (Controller.print_all messages).
Proof.
  intros Hp s. rewrite print_all_prints. split; [reflexivity |].
  exists (Print <$> messages). split; [reflexivity |].
  induction messages as [| m ms IH]; simpl; [reflexivity |]. now rewrite Hp.
Qed.

Lemma steady_forward_command w user_config :
  follows (steady off_line) (Controller.forward_command w user_config).
Proof.
  unfold Controller.forward_command. repeat quiet. now apply steady_print_all.
Qed.

Lemma steady_scan w user_config : follows (steady off_line) (scan w user_config).
Proof.
  unfold scan, print. repeat quiet.
  match goal with |- follows _ (_ ?ds) => induction ds as [| d ds IH] end;
    [quiet |].
  quiet; [quiet | exact IH].
Qed.

(** X26.  Forwarding and scanning run without the desk: when [forward] is
    set, or [scan_adapter] is, a [run] that starts without a client object
    creates none, adds no event on a client or on the link (no connection,
    no read, no write, no clean-up call), and raises no ordinary exception:
    those are printed and the run returns. *)
Theorem run_without_device (w : World) (user_config : gmap string value)
    (fuel : nat) (s : state) (forward : value)
    (Hclient : client s = false)
    (Hforward : user_config !! "forward" = Some forward)
    (Hmode : truthy forward = true
             \/ exists scan_adapter,
                  user_config !! "scan_adapter" = Some scan_adapter
                  /\ truthy scan_adapter = true) :
  steady off_line s (snd (Controller.run w user_config fuel s))
  /\ raises_only (fun e => negb (is_Exception e))
       (fst (Controller.run w user_config fuel s)).
Proof.
  assert (Hbody : follows (steady off_line) (Controller.run_body w user_config fuel)).
  { unfold Controller.run_body, getitem. rewrite Hforward.
    apply follows_ret_bind.
    destruct (truthy forward) eqn:Ef; [apply steady_forward_command |].
    destruct Hmode as [H | (sc & Hsc & Ht)]; [discriminate |].
    rewrite Hsc. apply follows_ret_bind. rewrite Ht.
    quiet; [apply steady_scan | quiet]. }
  unfold Controller.run, try_finally, try_except.
  specialize (Hbody s).
  destruct (Controller.run_body w user_config fuel s) as [[[] | e | |] s1];
    simpl in Hbody.
  - assert (Hc : client s1 = false) by (destruct Hbody as [-> _]; exact Hclient).
    unfold Controller.cleanup, bind, get_client. rewrite Hc. simpl. now split.
  - assert (Hc : client s1 = false) by (destruct Hbody as [-> _]; exact Hclient).
    destruct (is_KeyboardInterrupt e) eqn:Ek; simpl.
    + unfold Controller.cleanup, bind, get_client, raise. simpl. rewrite Hc. simpl.
      split; [exact Hbody |]. now destruct e.
    + destruct (is_Exception e) eqn:Ee; simpl.
      * unfold Controller.cleanup, bind, get_client, emit, emit_state. simpl.
        rewrite Hc. simpl. split; [| exact I].
        eapply steady_trans; [exact Hbody |].
        split; [simpl; now rewrite Hc |]. simpl. rewrite <- app_assoc.
        eexists. split; reflexivity.
      * unfold Controller.cleanup, bind, get_client, raise. simpl. rewrite Hc. simpl.
        split; [exact Hbody |]. now rewrite Ee.
  - now split.
  - now split.
Qed.

(** A forwarding client with a relay that answers nothing. *)
Lemma forward_sends_only_move_to_witness :
  exists payload,
    (payload !! "move_to" = forward_config !! "move_to"
     /\ forall key, key <> "move_to" -> payload !! key = None)
    /\ Controller.forward_command unreachable_desk forward_config
         Controller.initial_state
       = (match snd (forward_result unreachable_desk
                       (history Controller.initial_state ++ [Forward payload])) with
          | Some e => Raise e
          | None => Ret tt
          end,
          {| history := history Controller.initial_state ++ Forward payload
                        :: (Print <$> fst (forward_result unreachable_desk
                                             (history Controller.initial_state
                                              ++ [Forward payload])));
             client := client Controller.initial_state |}).
Proof.
  apply (forward_sends_only_move_to unreachable_desk forward_config
           Controller.initial_state (Scalar (SStr "127.0.0.1")) (Scalar (SInt 9123)));
    reflexivity.
Defined.

(** A forwarding client next to a desk out of reach. *)
Lemma run_without_device_witness :
  steady off_line Controller.initial_state
    (snd (Controller.run unreachable_desk forward_config 3 Controller.initial_state))
  /\ raises_only (fun e => negb (is_Exception e))
       (fst (Controller.run unreachable_desk forward_config 3 Controller.initial_state)).
Proof.
  apply (run_without_device unreachable_desk forward_config 3
           Controller.initial_state (Scalar (SBool true))).
  - reflexivity.
  - reflexivity.
  - left. reflexivity.
Defined.

End RunFacts.
